(** * FunASR-Nano-Desktop: model lifecycle and background tasks of [v1.0/main.py]

    A shallow embedding of the lifecycle code of [main.py]: the two worker
    threads ([WorkerThread.run], [TranscriptionThread.run]), the teardown of
    the loaded model ([MainWindow.unload_model], [MainWindow._recursive_delete],
    [MainWindow.on_model_loaded]) and the slots of the two pages that start
    and finish the threads ([ModelLoadPage.load_model],
    [TranscriptionPage.start_transcription], ...).

    Layout, style sheets and the texts of status labels are left out; what is
    kept of the widgets is what the control flow reads: the texts of the path
    labels, the device combo box, the enabled flag of the two start buttons
    and the page shown by the stacked widget. *)

From Stdlib Require Import String Ascii ZArith NArith Bool Arith Lia Sorted List.
Import ListNotations.

Set Implicit Arguments.
Set Warnings "-register-all".

(* ================================================================== *)
(** * Python values *)
(* ================================================================== *)

Module Py.

(** A Python [str] is a sequence of Unicode code points. *)
Definition str := list N.

Definition str_eqb (a b : str) : bool :=
  if list_eq_dec N.eq_dec a b then true else false.

(** Literals are written as UTF-8 text and decoded to code points. *)
Fixpoint utf8_decode (bs : list N) : str :=
  match bs with
  | [] => []
  | b0 :: r0 =>
      if (b0 <? 128)%N then b0 :: utf8_decode r0
      else if (b0 <? 224)%N then
        match r0 with
        | b1 :: r1 => ((b0 - 192) * 64 + (b1 - 128))%N :: utf8_decode r1
        | [] => [b0]
        end
      else if (b0 <? 240)%N then
        match r0 with
        | b1 :: b2 :: r2 =>
            ((b0 - 224) * 4096 + (b1 - 128) * 64 + (b2 - 128))%N
              :: utf8_decode r2
        | _ => [b0]
        end
      else
        match r0 with
        | b1 :: b2 :: b3 :: r3 =>
            ((b0 - 240) * 262144 + (b1 - 128) * 4096
             + (b2 - 128) * 64 + (b3 - 128))%N :: utf8_decode r3
        | _ => [b0]
        end
  end.

Definition lit (s : string) : str :=
  utf8_decode (map (fun b => N_of_ascii (ascii_of_byte b))
                   (list_byte_of_string s)).

(** [str.isspace] on one code point (the set of [Py_UNICODE_ISSPACE]). *)
Definition isspace (c : N) : bool :=
  ((9 <=? c) && (c <=? 13) || (28 <=? c) && (c <=? 32)
   || (c =? 133) || (c =? 160) || (c =? 5760)
   || (8192 <=? c) && (c <=? 8202)
   || (c =? 8232) || (c =? 8233) || (c =? 8239) || (c =? 8287)
   || (c =? 12288))%N.

Fixpoint lstrip (s : str) : str :=
  match s with
  | c :: s' => if isspace c then lstrip s' else s
  | [] => []
  end.

(** [s.strip()] *)
Definition strip (s : str) : str := rev (lstrip (rev (lstrip s))).

(** Exceptions, all of them subclasses of [Exception]; each carries the
    text [str(e)] gives. *)
Inductive exn : Type :=
| AttributeError (msg : str)
| StopIteration
| TypeError (msg : str)
| RuntimeError (msg : str)
| OSError (msg : str).

(** The values an inference call can hand back. *)
Inductive value : Type :=
| VNone
| VBool (b : bool)
| VInt (z : Z)
| VStr (s : str)
| VTuple (items : list value)
| VList (items : list value)
| VDict (items : list (str * value)).

(** [d.get(key, default)] on the items of a dict. *)
Fixpoint dict_get (key : str) (default : value) (d : list (str * value))
  : value :=
  match d with
  | [] => default
  | (k, v) :: d' => if str_eqb k key then v else dict_get key default d'
  end.

(** Truth value of a [str]: [if s:] *)
Definition truthy (s : str) : bool :=
  match s with [] => false | _ => true end.

End Py.

(* ================================================================== *)
(** * Torch objects *)
(* ================================================================== *)

(** A node of the model is named by the attribute names that lead to it
    from the handle, e.g. [audio_encoder; layers; 0]. *)
Definition path := list Py.str.

Record Tensor : Type := { is_cuda : bool }.

(** An object held in a sub-module attribute.  For an [nn.Module] the three
    dicts [_modules], [_parameters], [_buffers] are ordered by insertion and
    map a name to an object or to [None]; a dict that is [None] here stands
    for an instance on which looking the attribute up raises
    [AttributeError].  [PyObject] is anything that is not an [nn.Module]. *)
Inductive Module : Type :=
| PyObject
| NNModule (_modules : option (list (Py.str * option Module)))
           (_parameters : option (list (Py.str * option Tensor)))
           (_buffers : option (list (Py.str * option Tensor))).

(** The keyword arguments [from_pretrained] returns next to the model: the
    keys, each with whether its value is a [torch.Tensor]. *)
Definition Kwargs := list (Py.str * bool).

(** The model object, as far as [main.py] looks at it.  An attribute is
    [None] when [hasattr] is false and [Some v] when it is there with value
    [v] (itself [None] or a module). *)
Record ModelHandle : Type := {
  oid : nat;                                   (* object identity *)
  has_set_progress_callback : bool;
  audio_encoder : option (option Module);
  audio_adaptor : option (option Module);
  llm : option (option Module);
  (** [next(model.parameters()).is_cuda]; [None]: no parameter at all,
      [next] raises [StopIteration]. *)
  first_param_is_cuda : option bool;
  (** [model.to('cpu')] raises this. *)
  to_cpu_error : option Py.exn
}.

(* ================================================================== *)
(** * Messages and effects *)
(* ================================================================== *)

(** Clock readings of [time.time()], in milliseconds. *)
Definition time := Z.
Bind Scope Z_scope with time.

(** The texts of terminal signals, dialogs and console lines; a constructor
    per literal or f-string of the source. *)
Inductive Message : Type :=
| ModelDirMissing (model_dir : Py.str)   (* f"模型目录不存在: {model_dir}" *)
| ModelModuleUnavailable                 (* "模型模块无法导入，请检查model.py" *)
| ModelLoaded                            (* "模型加载成功！" *)
| ModelLoadFailed (e : Py.exn)           (* f"模型加载失败: {str(e)}" *)
| AudioMissing (audio_path : Py.str)     (* f"音频文件不存在: {self.audio_path}" *)
| CannotParseResult                      (* "无法解析识别结果" *)
| Transcribed (elapsed : time)           (* f"转录完成！耗时{elapsed_time:.1f}秒" *)
| TranscribedSaved (elapsed : time) (output_path : Py.str)
                                         (* ...，结果已保存到: {self.output_path} *)
| TranscribedSaveFailed (elapsed : time) (e : Py.exn)
                                         (* ...，但保存文件失败: {str(e)} *)
| TranscriptionError (e : Py.exn)        (* f"转录过程中发生错误: {str(e)}" *)
| SelectValidModelDir                    (* "请先选择有效的模型目录！" *)
| CudaUnavailable                        (* "CUDA不可用，请检查GPU驱动或选择其他设备！" *)
| SelectValidAudio                       (* "请先选择有效的音频文件！" *)
| ModelNotLoaded                         (* "模型未加载，请先在'加载模型'页面加载模型！" *)
| UnloadBegin                            (* "开始卸载模型..." *)
| UnloadDone                             (* "模型卸载完成" *)
| UnloadError (e : Py.exn)               (* f"卸载模型时出错: {str(e)}" *)
| DeleteError (e : Py.exn).              (* f"删除模块时出错: {str(e)}" *)

(** The three lines of the report file, one per [f.write]. *)
Inductive ReportLine : Type :=
| AudioLine (audio_path : Py.str)        (* f"音频文件: {self.audio_path}\n" *)
| ResultLine (text : Py.str)             (* f"识别结果:\n{text}\n" *)
| TimeLine (elapsed : time).             (* f"处理时间: {elapsed_time:.2f}秒\n" *)

(** [Signal(str, int, int, str)]: stage, value, total, message. *)
Record ProgressEvent : Type := {
  stage : Py.str; value : Z; total : Z; message : Py.str
}.

Inductive Device : Type := cuda0 | cpu.     (* "cuda:0" | "cpu" *)

(** What a run does to the world outside its own variables, in the order
    it does it. *)
Inductive Effect : Type :=
(* signals *)
| progress_signal (ev : ProgressEvent)
| finished_signal (model : option ModelHandle) (kwargs : option Kwargs)
                  (success : bool) (msg : Message)
| result_signal (result : Py.str) (success : bool) (msg : Message)
(* the model and torch *)
| set_progress_callback (registered : bool)   (* a bound method / None *)
| from_pretrained_call (model_dir : Py.str) (device : Device)
| eval_call
| inference_call (audio_path : Py.str)
| to_cpu
| setattr_None (name : Py.str)                (* self.model.<name> = None *)
| del_model                                   (* del self.model; self.model = None *)
| call_recursive_delete (p : path)            (* self._recursive_delete(<p>) *)
| modules_pop (p : path) (name : Py.str)      (* <p>._modules.pop(name, None) *)
| parameters_pop (p : path) (name : Py.str)
| buffers_pop (p : path) (name : Py.str)
| del_module (p : path)                       (* del module *)
| kwargs_clear
| gc_collect
| cuda_empty_cache
| cuda_ipc_collect
(* files, console, dialogs *)
| isfile_call (audio_path : Py.str)
| file_open (output_path : Py.str)            (* open(self.output_path, 'w', ...) *)
| file_write (output_path : Py.str) (line : ReportLine)   (* f.write(...) *)
| file_close (output_path : Py.str)           (* the end of the with block *)
| print (line : Message)
| warning (text : Message)
| critical (text : Message).

(* ================================================================== *)
(** * Runs that log effects and may raise *)
(* ================================================================== *)

(** A run either raises or returns, and in both cases has performed the
    effects it lists. *)
Definition Exec (A : Type) : Type := (Py.exn + A) * list Effect.

Module ExecMonad.

Definition ret {A} (a : A) : Exec A := (inr a, []).

Definition bind {A B} (c : Exec A) (k : A -> Exec B) : Exec B :=
  match fst c with
  | inl e => (inl e, snd c)
  | inr a => (fst (k a), snd c ++ snd (k a))
  end.

Definition raise {A} (e : Py.exn) : Exec A := (inl e, []).

Definition tell (ef : Effect) : Exec unit := (inr tt, [ef]).

(** [try: c  except Exception as e: h e] *)
Definition try_except {A} (c : Exec A) (h : Py.exn -> Exec A) : Exec A :=
  match fst c with
  | inl e => (fst (h e), snd c ++ snd (h e))
  | inr a => (inr a, snd c)
  end.

(** An operation of the environment that may fail. *)
Definition may_raise (err : option Py.exn) : Exec unit :=
  match err with Some e => raise e | None => ret tt end.

Definition when (b : bool) (c : Exec unit) : Exec unit :=
  if b then c else ret tt.

(** [for x in xs: body x] *)
Definition for_each {X} (xs : list X) (body : X -> Exec unit) : Exec unit :=
  (fix loop (l : list X) : Exec unit :=
     match l with
     | [] => ret tt
     | x :: l' => bind (body x) (fun _ => loop l')
     end) xs.

Definition trace {A} (c : Exec A) : list Effect := snd c.
Definition outcome {A} (c : Exec A) : Py.exn + A := fst c.

End ExecMonad.
Import ExecMonad.

Declare Scope exec_scope.
Delimit Scope exec_scope with exec.
Notation "x <- c ;; k" := (bind c (fun x => k))
  (at level 61, c at next level, right associativity) : exec_scope.
Notation "c ;; k" := (bind c (fun _ => k))
  (at level 61, right associativity) : exec_scope.
Local Open Scope exec_scope.

(** What the machine and the import of [model.py] fix for a whole run of
    the program. *)
Class Platform : Type := {
  abspath : Py.str -> Py.str;          (* os.path.abspath *)
  basename : Py.str -> Py.str;         (* os.path.basename *)
  cuda_is_available : bool;            (* torch.cuda.is_available() *)
  MODEL_AVAILABLE : bool
}.

(* ================================================================== *)
(** * class WorkerThread *)
(* ================================================================== *)

Module WorkerThread.

Record t : Type := { model_dir : Py.str; device : Device }.

(** What the thread finds outside while it runs. *)
Record Env : Type := {
  isdir : bool;                                      (* os.path.isdir(model_dir) *)
  from_pretrained : Py.exn + (ModelHandle * Kwargs); (* FunASRNano.from_pretrained *)
  eval_error : option Py.exn                         (* m.eval() raises this *)
}.

Definition emit_progress (stage : string) (value total : Z) (message : string)
  : Exec unit :=
  tell (progress_signal
          {| stage := Py.lit stage; value := value; total := total;
             message := Py.lit message |}).

Definition run `{Platform} (self : t) (env : Env) : Exec unit :=
  try_except
    (emit_progress "检查模型路径" 10 100 "正在检查模型路径..." ;;
     let model_dir := abspath (model_dir self) in
     if negb (isdir env) then
       tell (finished_signal None None false (ModelDirMissing model_dir))
     else
       emit_progress "加载模型" 30 100 "正在加载模型..." ;;
       if negb MODEL_AVAILABLE then
         tell (finished_signal None None false ModelModuleUnavailable)
       else
         tell (from_pretrained_call model_dir (device self)) ;;
         mk <- (match from_pretrained env with
                | inl e => raise e
                | inr mk => ret mk
                end) ;;
         tell eval_call ;;
         may_raise (eval_error env) ;;
         emit_progress "清理内存" 95 100 "正在清理内存..." ;;
         tell gc_collect ;;
         when cuda_is_available
              (tell cuda_empty_cache ;; tell cuda_ipc_collect) ;;
         emit_progress "完成" 100 100 "模型加载成功！" ;;
         tell (finished_signal (Some (fst mk)) (Some (snd mk)) true
                               ModelLoaded))
    (fun e => tell (finished_signal None None false (ModelLoadFailed e))).

End WorkerThread.

(* ================================================================== *)
(** * class TranscriptionThread *)
(* ================================================================== *)

Module TranscriptionThread.

Record t : Type := {
  model : ModelHandle;
  kwargs : option Kwargs;
  audio_path : Py.str;
  output_path : option Py.str
}.

(** The operations on the report file, each of which can fail. *)
Inductive WritePoint : Type :=
| at_open | at_write1 | at_write2 | at_write3 | at_close.

Definition same_point (p q : WritePoint) : bool :=
  match p, q with
  | at_open, at_open | at_write1, at_write1 | at_write2, at_write2
  | at_write3, at_write3 | at_close, at_close => true
  | _, _ => false
  end.

Record Env : Type := {
  start_time : time;                 (* time.time() on entry *)
  isfile : bool;                     (* os.path.isfile(self.audio_path) *)
  (** the calls the model makes to the registered callback during
      [inference], in order *)
  callbacks : list ProgressEvent;
  inference : Py.exn + Py.value;     (* self.model.inference(...) *)
  end_time : time;                   (* time.time() after parsing *)
  write_error : option Py.exn;       (* open(), a write() or the close
                                        raises this *)
  write_fault : WritePoint           (* the one of them that raises *)
}.

(** [_progress_callback]: hands the model's report on unchanged. *)
Definition _progress_callback (ev : ProgressEvent) : Exec unit :=
  tell (progress_signal ev).

(** [if self.output_path:] holds for a path that is neither [None] nor
    empty. *)
Definition output_requested (self : t) : option Py.str :=
  match output_path self with
  | Some p => if Py.truthy p then Some p else None
  | None => None
  end.

Definition placeholder : Py.str := Py.lit "未找到文本".

(** The one progress event the thread emits itself. *)
Definition preparing : ProgressEvent :=
  {| stage := Py.lit "准备音频"; value := 5; total := 100;
     message := Py.lit "正在准备音频文件..." |}.

(** [except Exception as e:] of [run] *)
Definition on_error (e : Py.exn) : Exec unit :=
  tell (result_signal [] false (TranscriptionError e)).

(** One operation on the report file: it raises when it is the one that the
    environment lets fail. *)
Definition fails (env : Env) (p : WritePoint) : Exec unit :=
  match write_error env with
  | Some e => if same_point (write_fault env) p then raise e else ret tt
  | None => ret tt
  end.

(** [with ... as f: body]: the file is closed when [body] is left, also
    when an exception leaves it, which then goes on; an exception of the
    close itself goes on in its place. *)
Definition closing (body close : Exec unit) : Exec unit :=
  (match fst close with
   | inl e => inl e
   | inr _ => fst body
   end,
   snd body ++ snd close).

(** [with open(self.output_path, 'w', encoding='utf-8') as f:] and the
    three [f.write] in it.  [open] creates the file or empties it. *)
Definition save_report (self : t) (env : Env) (out text : Py.str)
    (elapsed_time : time) : Exec unit :=
  fails env at_open ;;
  tell (file_open out) ;;
  closing
    (fails env at_write1 ;;
     tell (file_write out (AudioLine (audio_path self))) ;;
     fails env at_write2 ;;
     tell (file_write out (ResultLine text)) ;;
     fails env at_write3 ;;
     tell (file_write out (TimeLine elapsed_time)))
    (fails env at_close ;;
     tell (file_close out)).

(** The part of [run] after the inference call: parse the result, then
    write the report if asked to, and emit the terminal signal. *)
Definition parse_and_report (self : t) (env : Env) (res : Py.value)
  : Exec unit :=
  match res with
  | Py.VTuple (Py.VList (item :: _) :: _) =>
      (* text = res[0][0].get("text", "未找到文本") *)
      got <- (match item with
              | Py.VDict d =>
                  ret (Py.dict_get (Py.lit "text") (Py.VStr placeholder) d)
              | _ => raise (Py.AttributeError (Py.lit "get"))
              end) ;;
      (* text = text.strip() *)
      text <- (match got with
               | Py.VStr s => ret (Py.strip s)
               | _ => raise (Py.AttributeError (Py.lit "strip"))
               end) ;;
      let elapsed_time := (end_time env - start_time env)%Z in
      match output_requested self with
      | Some out =>
          try_except
            (save_report self env out text elapsed_time ;;
             tell (result_signal text true
                     (TranscribedSaved elapsed_time out)))
            (fun e =>
               tell (result_signal text true
                       (TranscribedSaveFailed elapsed_time e)))
      | None =>
          tell (result_signal text true (Transcribed elapsed_time))
      end
  | _ => tell (result_signal [] false CannotParseResult)
  end.

Definition run (self : t) (env : Env) : Exec unit :=
  try_except
    ((* self.model.set_progress_callback(self._progress_callback) *)
     (if has_set_progress_callback (model self)
      then tell (set_progress_callback true)
      else raise (Py.AttributeError (Py.lit "set_progress_callback"))) ;;
     tell (progress_signal preparing) ;;
     tell (isfile_call (audio_path self)) ;;
     if negb (isfile env) then
       tell (result_signal [] false (AudioMissing (audio_path self)))
     else
       tell (inference_call (audio_path self)) ;;
       for_each (callbacks env) _progress_callback ;;
       res <- (match inference env with
               | inl e => raise e
               | inr v => ret v
               end) ;;
       parse_and_report self env res)
    on_error.

End TranscriptionThread.

(* ================================================================== *)
(** * The window and its two pages *)
(* ================================================================== *)

(** The items of [device_combo]. *)
Inductive DeviceChoice : Type :=
| choice_auto      (* "自动选择 (优先使用GPU)" *)
| choice_cpu       (* "CPU" *)
| choice_gpu.      (* "GPU (CUDA)" *)

(** The attributes of [MainWindow], [ModelLoadPage] and [TranscriptionPage]
    that the slots read or write, and the console and dialogs as a list of
    effects.  The threads listed are those that were started and whose
    terminal signal has not been delivered yet. *)
Record App : Type := {
  (* MainWindow *)
  model : option ModelHandle;
  model_kwargs : option Kwargs;
  current_model_name : Py.str;
  current_index : nat;                 (* stacked_widget: 0 load, 1 transcribe *)
  (* ModelLoadPage *)
  path_label : Py.str;
  device_combo : DeviceChoice;
  load_btn : bool;                     (* isEnabled() *)
  load_workers : list WorkerThread.t;
  (* TranscriptionPage *)
  audio_label : Py.str;
  output_label : Py.str;
  transcribe_btn : bool;               (* isEnabled() *)
  transcription_workers : list TranscriptionThread.t;
  (* console, dialogs, torch *)
  effects : list Effect
}.

Definition set_model v (w : App) : App :=
  {| model := v; model_kwargs := model_kwargs w;
     current_model_name := current_model_name w;
     current_index := current_index w; path_label := path_label w;
     device_combo := device_combo w; load_btn := load_btn w;
     load_workers := load_workers w; audio_label := audio_label w;
     output_label := output_label w; transcribe_btn := transcribe_btn w;
     transcription_workers := transcription_workers w;
     effects := effects w |}.

Definition set_model_kwargs v (w : App) : App :=
  {| model := model w; model_kwargs := v;
     current_model_name := current_model_name w;
     current_index := current_index w; path_label := path_label w;
     device_combo := device_combo w; load_btn := load_btn w;
     load_workers := load_workers w; audio_label := audio_label w;
     output_label := output_label w; transcribe_btn := transcribe_btn w;
     transcription_workers := transcription_workers w;
     effects := effects w |}.

Definition set_current_model_name v (w : App) : App :=
  {| model := model w; model_kwargs := model_kwargs w;
     current_model_name := v;
     current_index := current_index w; path_label := path_label w;
     device_combo := device_combo w; load_btn := load_btn w;
     load_workers := load_workers w; audio_label := audio_label w;
     output_label := output_label w; transcribe_btn := transcribe_btn w;
     transcription_workers := transcription_workers w;
     effects := effects w |}.

Definition set_current_index v (w : App) : App :=
  {| model := model w; model_kwargs := model_kwargs w;
     current_model_name := current_model_name w;
     current_index := v; path_label := path_label w;
     device_combo := device_combo w; load_btn := load_btn w;
     load_workers := load_workers w; audio_label := audio_label w;
     output_label := output_label w; transcribe_btn := transcribe_btn w;
     transcription_workers := transcription_workers w;
     effects := effects w |}.

Definition set_path_label v (w : App) : App :=
  {| model := model w; model_kwargs := model_kwargs w;
     current_model_name := current_model_name w;
     current_index := current_index w; path_label := v;
     device_combo := device_combo w; load_btn := load_btn w;
     load_workers := load_workers w; audio_label := audio_label w;
     output_label := output_label w; transcribe_btn := transcribe_btn w;
     transcription_workers := transcription_workers w;
     effects := effects w |}.

Definition set_device_combo v (w : App) : App :=
  {| model := model w; model_kwargs := model_kwargs w;
     current_model_name := current_model_name w;
     current_index := current_index w; path_label := path_label w;
     device_combo := v; load_btn := load_btn w;
     load_workers := load_workers w; audio_label := audio_label w;
     output_label := output_label w; transcribe_btn := transcribe_btn w;
     transcription_workers := transcription_workers w;
     effects := effects w |}.

Definition set_load_btn v (w : App) : App :=
  {| model := model w; model_kwargs := model_kwargs w;
     current_model_name := current_model_name w;
     current_index := current_index w; path_label := path_label w;
     device_combo := device_combo w; load_btn := v;
     load_workers := load_workers w; audio_label := audio_label w;
     output_label := output_label w; transcribe_btn := transcribe_btn w;
     transcription_workers := transcription_workers w;
     effects := effects w |}.

Definition set_load_workers v (w : App) : App :=
  {| model := model w; model_kwargs := model_kwargs w;
     current_model_name := current_model_name w;
     current_index := current_index w; path_label := path_label w;
     device_combo := device_combo w; load_btn := load_btn w;
     load_workers := v; audio_label := audio_label w;
     output_label := output_label w; transcribe_btn := transcribe_btn w;
     transcription_workers := transcription_workers w;
     effects := effects w |}.

Definition set_audio_label v (w : App) : App :=
  {| model := model w; model_kwargs := model_kwargs w;
     current_model_name := current_model_name w;
     current_index := current_index w; path_label := path_label w;
     device_combo := device_combo w; load_btn := load_btn w;
     load_workers := load_workers w; audio_label := v;
     output_label := output_label w; transcribe_btn := transcribe_btn w;
     transcription_workers := transcription_workers w;
     effects := effects w |}.

Definition set_output_label v (w : App) : App :=
  {| model := model w; model_kwargs := model_kwargs w;
     current_model_name := current_model_name w;
     current_index := current_index w; path_label := path_label w;
     device_combo := device_combo w; load_btn := load_btn w;
     load_workers := load_workers w; audio_label := audio_label w;
     output_label := v; transcribe_btn := transcribe_btn w;
     transcription_workers := transcription_workers w;
     effects := effects w |}.

Definition set_transcribe_btn v (w : App) : App :=
  {| model := model w; model_kwargs := model_kwargs w;
     current_model_name := current_model_name w;
     current_index := current_index w; path_label := path_label w;
     device_combo := device_combo w; load_btn := load_btn w;
     load_workers := load_workers w; audio_label := audio_label w;
     output_label := output_label w; transcribe_btn := v;
     transcription_workers := transcription_workers w;
     effects := effects w |}.

Definition set_transcription_workers v (w : App) : App :=
  {| model := model w; model_kwargs := model_kwargs w;
     current_model_name := current_model_name w;
     current_index := current_index w; path_label := path_label w;
     device_combo := device_combo w; load_btn := load_btn w;
     load_workers := load_workers w; audio_label := audio_label w;
     output_label := output_label w; transcribe_btn := transcribe_btn w;
     transcription_workers := v;
     effects := effects w |}.

(** Appends to the effects performed so far. *)
Definition perform (efs : list Effect) (w : App) : App :=
  {| model := model w; model_kwargs := model_kwargs w;
     current_model_name := current_model_name w;
     current_index := current_index w; path_label := path_label w;
     device_combo := device_combo w; load_btn := load_btn w;
     load_workers := load_workers w; audio_label := audio_label w;
     output_label := output_label w; transcribe_btn := transcribe_btn w;
     transcription_workers := transcription_workers w;
     effects := effects w ++ efs |}.

(** Statements of a slot: they change the attributes and may raise; what
    was changed before an exception stays changed. *)
Definition Stmt (A : Type) : Type := App -> (Py.exn + A) * App.

Module StmtMonad.

Definition ret {A} (a : A) : Stmt A := fun w => (inr a, w).

Definition bind {A B} (c : Stmt A) (k : A -> Stmt B) : Stmt B :=
  fun w =>
    match c w with
    | (inl e, w') => (inl e, w')
    | (inr a, w') => k a w'
    end.

Definition raise {A} (e : Py.exn) : Stmt A := fun w => (inl e, w).

(** A run that only logs effects, performed here. *)
Definition lift {A} (c : Exec A) : Stmt A :=
  fun w => (fst c, perform (snd c) w).

Definition say (ef : Effect) : Stmt unit := lift (ExecMonad.tell ef).

Definition modify (f : App -> App) : Stmt unit := fun w => (inr tt, f w).

Definition gets {A} (f : App -> A) : Stmt A := fun w => (inr (f w), w).

Definition when (b : bool) (c : Stmt unit) : Stmt unit :=
  if b then c else ret tt.

(** [try: c  except Exception as e: h e] *)
Definition try_except {A} (c : Stmt A) (h : Py.exn -> Stmt A) : Stmt A :=
  fun w =>
    match c w with
    | (inl e, w') => h e w'
    | (inr a, w') => (inr a, w')
    end.

(** A slot called by Qt: an exception that leaves it is reported on the
    console by the binding and the event loop goes on. *)
Definition slot (c : Stmt unit) : App -> App := fun w => snd (c w).

End StmtMonad.

Declare Scope stmt_scope.
Delimit Scope stmt_scope with stmt.
Notation "x <- c ;; k" := (StmtMonad.bind c (fun x => k))
  (at level 61, c at next level, right associativity) : stmt_scope.
Notation "c ;; k" := (StmtMonad.bind c (fun _ => k))
  (at level 61, right associativity) : stmt_scope.

(** [hasattr(obj, name)] and the value of the attribute. *)
Definition hasattr {A} (attr : option A) : bool :=
  match attr with Some _ => true | None => false end.

Module TranscriptionPage.
Import StmtMonad.
Local Open Scope stmt_scope.

(** [update_model_status(model_name)]: besides the label, enables the
    start button for a non-empty name and disables it otherwise. *)
Definition update_model_status (model_name : Py.str) : Stmt unit :=
  if Py.truthy model_name
  then modify (set_transcribe_btn true)
  else modify (set_transcribe_btn false).

(** [browse_audio_file], with the path the dialog returned. *)
Definition browse_audio_file (file_path : Py.str) : Stmt unit :=
  when (Py.truthy file_path) (modify (set_audio_label file_path)).

Definition browse_output_file (file_path : Py.str) : Stmt unit :=
  when (Py.truthy file_path) (modify (set_output_label file_path)).

(** [start_transcription]; [isfile] is [os.path.isfile(audio_path)]. *)
Definition start_transcription (isfile : bool) : Stmt unit :=
  audio_path <- gets audio_label ;;
  if Py.str_eqb audio_path (Py.lit "未选择音频文件") || negb isfile then
    say (warning SelectValidAudio)
  else
    m <- gets model ;;
    match m with
    | None => say (warning ModelNotLoaded)
    | Some the_model =>
        label <- gets output_label ;;
        let output_path :=
          if Py.str_eqb label (Py.lit "未选择输出文件")
          then None else Some label in
        modify (set_transcribe_btn false) ;;
        kw <- gets model_kwargs ;;
        let worker :=
          {| TranscriptionThread.model := the_model;
             TranscriptionThread.kwargs := kw;
             TranscriptionThread.audio_path := audio_path;
             TranscriptionThread.output_path := output_path |} in
        (* self.worker.start() *)
        ws <- gets transcription_workers ;;
        modify (set_transcription_workers (ws ++ [worker]))
    end.

(** [transcription_finished(result, success, message)] *)
Definition transcription_finished `{Platform}
    (result : Py.str) (success : bool) (msg : Message) : Stmt unit :=
  modify (set_transcribe_btn true) ;;
  if success then
    say gc_collect ;;
    when cuda_is_available (say cuda_empty_cache)
  else
    say (critical msg).

End TranscriptionPage.

Module MainWindow.
Import StmtMonad.

(** [_recursive_delete(module)] for a [module] that is not [None] (both
    callers test that before the call); [p] names the object.  The loop
    over [children_names] looks every name up in [_modules] again, which
    for the keys of one dict is the entry itself. *)
Fixpoint _recursive_delete (p : path) (module : Module) {struct module}
  : Exec unit :=
  (ExecMonad.tell (call_recursive_delete p) ;;
   ExecMonad.try_except
     ((match module with
       | NNModule mods params bufs =>
           match mods with
           | None => ExecMonad.raise (Py.AttributeError (Py.lit "_modules"))
           | Some children =>
               for_each children
                 (fun '(name, child) =>
                    match child with
                    | Some c =>
                        _recursive_delete (p ++ [name]) c ;;
                        ExecMonad.tell (modules_pop p name)
                    | None => ExecMonad.ret tt
                    end)
           end ;;
           match params with
           | None =>
               ExecMonad.raise (Py.AttributeError (Py.lit "_parameters"))
           | Some parameters =>
               for_each parameters
                 (fun '(param_name, param) =>
                    match param with
                    | Some _ => ExecMonad.tell (parameters_pop p param_name)
                    | None => ExecMonad.ret tt
                    end)
           end ;;
           match bufs with
           | None => ExecMonad.raise (Py.AttributeError (Py.lit "_buffers"))
           | Some buffers =>
               for_each buffers
                 (fun '(buffer_name, buffer) =>
                    match buffer with
                    | Some _ => ExecMonad.tell (buffers_pop p buffer_name)
                    | None => ExecMonad.ret tt
                    end)
           end
       | PyObject => ExecMonad.ret tt
       end) ;;
      ExecMonad.tell (del_module p))
     (fun e => ExecMonad.tell (print (DeleteError e))))%exec.

(** [submodules]: the values of the attributes that are there, in the
    order they are appended, each with its attribute name. *)
Definition attr_entry (name : string) (attr : option (option Module))
  : list (Py.str * option Module) :=
  match attr with Some v => [(Py.lit name, v)] | None => [] end.

Definition collect_submodules (m : ModelHandle)
  : list (Py.str * option Module) :=
  attr_entry "audio_encoder" (audio_encoder m)
  ++ attr_entry "audio_adaptor" (audio_adaptor m)
  ++ attr_entry "llm" (llm m).

(** Step 6 of [unload_model]: the loop over [submodules]. *)
Definition delete_submodules (submodules : list (Py.str * option Module))
  : Exec unit :=
  for_each submodules
    (fun '(name, module) =>
       match module with
       | Some md => _recursive_delete [name] md
       | None => ExecMonad.ret tt
       end).

Local Open Scope stmt_scope.

Definition unload_model `{Platform} : Stmt unit :=
  current <- gets model ;;
  match current with
  | None => ret tt
  | Some m =>
      try_except
        (say (print UnloadBegin) ;;
         (* 1 *)
         when (has_set_progress_callback m)
              (say (set_progress_callback false)) ;;
         (* 2 *)
         let submodules := collect_submodules m in
         (* 3 *)
         on_gpu <- (match first_param_is_cuda m with
                    | Some b => ret b
                    | None => raise Py.StopIteration
                    end) ;;
         when on_gpu (say to_cpu ;; lift (may_raise (to_cpu_error m))) ;;
         (* 4 *)
         when (hasattr (audio_encoder m))
              (say (setattr_None (Py.lit "audio_encoder"))) ;;
         when (hasattr (audio_adaptor m))
              (say (setattr_None (Py.lit "audio_adaptor"))) ;;
         when (hasattr (llm m)) (say (setattr_None (Py.lit "llm"))) ;;
         (* 5 *)
         say del_model ;;
         modify (set_model None) ;;
         (* 6 *)
         lift (delete_submodules submodules) ;;
         (* 7 *)
         kw <- gets model_kwargs ;;
         match kw with
         | Some _ => say kwargs_clear ;; modify (set_model_kwargs None)
         | None => ret tt
         end ;;
         (* 8, 9, 10 *)
         say gc_collect ;;
         when cuda_is_available
              (say cuda_empty_cache ;; say cuda_ipc_collect) ;;
         say gc_collect ;;
         modify (set_current_model_name []) ;;
         (* model_page.update_model_status with two empty strings: a label only *)
         TranscriptionPage.update_model_status [] ;;
         say (print UnloadDone))
        (fun e => say (print (UnloadError e)))
  end.

Definition switch_to_model_page : Stmt unit :=
  modify (set_current_index 0).

Definition switch_to_transcription_page : Stmt unit :=
  modify (set_current_index 1) ;;
  name <- gets current_model_name ;;
  TranscriptionPage.update_model_status name.

(** [on_model_loaded(model, kwargs, model_dir)] *)
Definition on_model_loaded `{Platform}
    (new_model : option ModelHandle) (kwargs : option Kwargs)
    (model_dir : Py.str) : Stmt unit :=
  current <- gets model ;;
  when (hasattr current) unload_model ;;
  modify (set_model new_model) ;;
  modify (set_model_kwargs kwargs) ;;
  modify (set_current_model_name (basename model_dir)) ;;
  if hasattr new_model then
    say gc_collect ;;
    when cuda_is_available (say cuda_empty_cache) ;;
    name <- gets current_model_name ;;
    TranscriptionPage.update_model_status name ;;
    switch_to_transcription_page
  else
    ret tt.

Definition closeEvent `{Platform} : Stmt unit := unload_model.

End MainWindow.

Module ModelLoadPage.
Import StmtMonad.
Local Open Scope stmt_scope.

(** [browse_model_dir], with the directory the dialog returned. *)
Definition browse_model_dir (dir_path : Py.str) : Stmt unit :=
  when (Py.truthy dir_path) (modify (set_path_label dir_path)).

(** The device chosen by the [if / elif / else] of [load_model] over the
    text of the combo box; [None] where it gives up with a warning. *)
Definition resolve_device `{Platform} (device_choice : DeviceChoice)
  : option Device :=
  match device_choice with
  | choice_auto => Some (if cuda_is_available then cuda0 else cpu)
  | choice_gpu => if negb cuda_is_available then None else Some cuda0
  | choice_cpu => Some cpu
  end.

(** [load_model]; [isdir] is [os.path.isdir(model_dir)] and
    [processEvents] what [QApplication.processEvents()] dispatches: the
    events that are waiting at that moment. *)
Definition load_model `{Platform} (isdir : bool)
    (processEvents : Stmt unit) : Stmt unit :=
  model_dir <- gets path_label ;;
  if Py.str_eqb model_dir (Py.lit "未选择模型目录") || negb isdir then
    say (warning SelectValidModelDir)
  else
    device_choice <- gets device_combo ;;
    match resolve_device device_choice with
    | None => say (warning CudaUnavailable)
    | Some device =>
        current <- gets model ;;
        when (hasattr current)
             (processEvents ;; MainWindow.unload_model) ;;
        modify (set_load_btn false) ;;
        let worker :=
          {| WorkerThread.model_dir := model_dir;
             WorkerThread.device := device |} in
        (* self.worker.start() *)
        ws <- gets load_workers ;;
        modify (set_load_workers (ws ++ [worker]))
    end.

(** [model_loaded_callback(model, kwargs, success, message)]; emitting
    [model_loaded] runs [MainWindow.on_model_loaded] at once. *)
Definition model_loaded_callback `{Platform}
    (new_model : option ModelHandle) (kwargs : option Kwargs)
    (success : bool) (msg : Message) : Stmt unit :=
  modify (set_load_btn true) ;;
  if success then
    model_dir <- gets path_label ;;
    (* self.model_loaded.emit(model, kwargs, model_dir) *)
    modify (slot (MainWindow.on_model_loaded new_model kwargs model_dir)) ;;
    MainWindow.switch_to_transcription_page
  else
    say (critical msg).

End ModelLoadPage.

(* ================================================================== *)
(** * The event loop *)
(* ================================================================== *)

(** What Qt hands to the slots: what the user does with the widgets and the
    terminal signals of threads.  A click on the load button carries the
    events that are waiting when [load_model] calls [processEvents]. *)
Inductive Event : Type :=
| browse_model_dir (dir_path : Py.str)
| select_device (choice : DeviceChoice)
| click_load (isdir : bool) (waiting : list Event)
| load_thread_done (i : nat) (env : WorkerThread.Env)
| browse_audio_file (file_path : Py.str)
| browse_output_file (file_path : Py.str)
| click_transcribe (isfile : bool)
| transcription_thread_done (i : nat) (env : TranscriptionThread.Env)
| click_model_btn
| click_transcribe_nav_btn.

Definition remove_nth {A} (i : nat) (l : list A) : list A :=
  firstn i l ++ skipn (S i) l.

(** Delivery of the signals a load thread emitted, in order: the progress
    signals reach labels only, [finished_signal] is connected to
    [model_loaded_callback]. *)
Definition deliver_load_signals `{Platform} (emitted : list Effect)
  : App -> App :=
  fun w =>
    fold_left
      (fun a ef =>
         match ef with
         | finished_signal m kw ok msg =>
             StmtMonad.slot (ModelLoadPage.model_loaded_callback m kw ok msg) a
         | _ => a
         end)
      emitted w.

Definition deliver_transcription_signals `{Platform} (emitted : list Effect)
  : App -> App :=
  fun w =>
    fold_left
      (fun a ef =>
         match ef with
         | result_signal r ok msg =>
             StmtMonad.slot (TranscriptionPage.transcription_finished r ok msg) a
         | _ => a
         end)
      emitted w.

(** One event.  A click reaches its slot only when the button is enabled
    and its page is the one shown. *)
Fixpoint dispatch `{Platform} (e : Event) (w : App) {struct e} : App :=
  match e with
  | browse_model_dir d =>
      if current_index w =? 0
      then StmtMonad.slot (ModelLoadPage.browse_model_dir d) w else w
  | select_device c =>
      if current_index w =? 0 then set_device_combo c w else w
  | click_load isdir waiting =>
      if (current_index w =? 0) && load_btn w then
        StmtMonad.slot
          (ModelLoadPage.load_model isdir
             (fun w' =>
                (inr tt, fold_left (fun a e' => dispatch e' a) waiting w')))
          w
      else w
  | load_thread_done i env =>
      match nth_error (load_workers w) i with
      | Some t =>
          deliver_load_signals
            (trace (WorkerThread.run t env))
            (set_load_workers (remove_nth i (load_workers w)) w)
      | None => w
      end
  | browse_audio_file f =>
      if current_index w =? 1
      then StmtMonad.slot (TranscriptionPage.browse_audio_file f) w else w
  | browse_output_file f =>
      if current_index w =? 1
      then StmtMonad.slot (TranscriptionPage.browse_output_file f) w else w
  | click_transcribe isfile =>
      if (current_index w =? 1) && transcribe_btn w
      then StmtMonad.slot (TranscriptionPage.start_transcription isfile) w
      else w
  | transcription_thread_done i env =>
      match nth_error (transcription_workers w) i with
      | Some t =>
          deliver_transcription_signals
            (trace (TranscriptionThread.run t env))
            (set_transcription_workers
               (remove_nth i (transcription_workers w)) w)
      | None => w
      end
  | click_model_btn => StmtMonad.slot MainWindow.switch_to_model_page w
  | click_transcribe_nav_btn =>
      StmtMonad.slot MainWindow.switch_to_transcription_page w
  end.

Definition run_events `{Platform} (es : list Event) (w : App) : App :=
  fold_left (fun a e => dispatch e a) es w.

(** The attributes after [MainWindow.__init__]. *)
Definition initial : App :=
  {| model := None; model_kwargs := None; current_model_name := [];
     current_index := 0;
     path_label := Py.lit "未选择模型目录"; device_combo := choice_auto;
     load_btn := true; load_workers := [];
     audio_label := Py.lit "未选择音频文件";
     output_label := Py.lit "未选择输出文件";
     transcribe_btn := true; transcription_workers := [];
     effects := [] |}.

(* ================================================================== *)
(** * Observations on traces and states *)
(* ================================================================== *)

(** The progress events of a trace, in emission order. *)
Fixpoint progress_of (tr : list Effect) : list ProgressEvent :=
  match tr with
  | [] => []
  | progress_signal ev :: tr' => ev :: progress_of tr'
  | _ :: tr' => progress_of tr'
  end.

(** The terminal results a transcription thread emitted. *)
Fixpoint results_of (tr : list Effect) : list (Py.str * bool * Message) :=
  match tr with
  | [] => []
  | result_signal r ok msg :: tr' => (r, ok, msg) :: results_of tr'
  | _ :: tr' => results_of tr'
  end.

(** The terminal results a load thread emitted. *)
Fixpoint finished_of (tr : list Effect)
  : list (option ModelHandle * option Kwargs * bool * Message) :=
  match tr with
  | [] => []
  | finished_signal m kw ok msg :: tr' => (m, kw, ok, msg) :: finished_of tr'
  | _ :: tr' => finished_of tr'
  end.

(** The lines written to files, in the order of the writes. *)
Fixpoint writes_of (tr : list Effect) : list (Py.str * ReportLine) :=
  match tr with
  | [] => []
  | file_write out line :: tr' => (out, line) :: writes_of tr'
  | _ :: tr' => writes_of tr'
  end.

(** [isinstance(res, tuple) and len(res) > 0 and isinstance(res[0], list)
    and len(res[0]) > 0], operator by operator. *)
Definition is_tuple (v : Py.value) : bool :=
  match v with Py.VTuple _ => true | _ => false end.
Definition is_list (v : Py.value) : bool :=
  match v with Py.VList _ => true | _ => false end.
Definition py_len (v : Py.value) : nat :=
  match v with
  | Py.VTuple l | Py.VList l => List.length l
  | Py.VStr s => List.length s
  | Py.VDict d => List.length d
  | _ => 0
  end.
Definition py_index (v : Py.value) (i : nat) : Py.value :=
  match v with
  | Py.VTuple l | Py.VList l => nth i l Py.VNone
  | _ => Py.VNone
  end.
Definition container_shape (res : Py.value) : bool :=
  is_tuple res && (0 <? py_len res)
  && is_list (py_index res 0) && (0 <? py_len (py_index res 0)).

(** Whether the first item of a result has a [text] entry. *)
Definition exposes_text (item : Py.value) : bool :=
  match item with
  | Py.VDict d => existsb (fun kv => Py.str_eqb (fst kv) (Py.lit "text")) d
  | _ => false
  end.

(** [a] is a proper prefix of [b]: [b] names an object below [a]. *)
Definition below (a b : path) : Prop := exists n rest, b = a ++ n :: rest.

(** The effects of a walk that belong to the sub-tree of the object [p]:
    they act on an object below [p], or take a child out of [p] itself. *)
Definition in_subtree (p : path) (ef : Effect) : Prop :=
  match ef with
  | call_recursive_delete q | parameters_pop q _ | buffers_pop q _
  | del_module q => below p q
  | modules_pop q _ => q = p \/ below p q
  | print (DeleteError _) => True
  | _ => False
  end.

(** The effects by which [_recursive_delete] releases what the object [p]
    holds itself. *)
Definition own_release (p : path) (ef : Effect) : Prop :=
  match ef with
  | parameters_pop q _ | buffers_pop q _ | del_module q => q = p
  | print (DeleteError _) => True
  | _ => False
  end.

(** The effects of a walk that act on the object [p] or below it. *)
Definition within (p : path) (ef : Effect) : Prop :=
  match ef with
  | call_recursive_delete q | modules_pop q _ | parameters_pop q _
  | buffers_pop q _ | del_module q => q = p \/ below p q
  | print (DeleteError _) => True
  | _ => False
  end.

(** What [_recursive_delete] does for one entry of [_modules] of the
    object [p]: the walk of the child, then the child is taken out. *)
Definition child_effects (p : path) (entry : Py.str * option Module)
  : list Effect :=
  match entry with
  | (name, Some c) =>
      trace (MainWindow._recursive_delete (p ++ [name]) c)
      ++ [modules_pop p name]
  | (_, None) => []
  end.

Definition children_effects (p : path) (m : Module) : list Effect :=
  match m with
  | NNModule (Some children) _ _ => flat_map (child_effects p) children
  | _ => []
  end.

(** The pops of the entries of [_parameters] or [_buffers] that are not
    [None]. *)
Definition pop_effects (pop : path -> Py.str -> Effect) (p : path)
    (entries : list (Py.str * option Tensor)) : list Effect :=
  flat_map (fun entry => match snd entry with
                         | Some _ => [pop p (fst entry)]
                         | None => []
                         end) entries.

(** What [_recursive_delete] does for the object [p] once its children are
    done, or the line it prints when a dict cannot be reached. *)
Definition own_effects (p : path) (m : Module) : list Effect :=
  match m with
  | PyObject => [del_module p]
  | NNModule None _ _ =>
      [print (DeleteError (Py.AttributeError (Py.lit "_modules")))]
  | NNModule (Some _) None _ =>
      [print (DeleteError (Py.AttributeError (Py.lit "_parameters")))]
  | NNModule (Some _) (Some parameters) None =>
      pop_effects parameters_pop p parameters
      ++ [print (DeleteError (Py.AttributeError (Py.lit "_buffers")))]
  | NNModule (Some _) (Some parameters) (Some buffers) =>
      pop_effects parameters_pop p parameters
      ++ pop_effects buffers_pop p buffers ++ [del_module p]
  end.

(** The exception the third step of [unload_model] raises for the model
    [m], if any: the model has no parameter, or its first parameter is on
    the GPU and moving the model to the CPU fails. *)
Definition migration_error (m : ModelHandle) : option Py.exn :=
  match first_param_is_cuda m with
  | None => Some Py.StopIteration
  | Some true => to_cpu_error m
  | Some false => None
  end.

(** An event during whose slot no other event is dispatched. *)
Definition no_waiting (e : Event) : Prop :=
  match e with
  | click_load _ waiting => waiting = []
  | _ => True
  end.

(** [posixpath.basename] *)
Fixpoint basename_from (candidate s : Py.str) : Py.str :=
  match s with
  | [] => candidate
  | c :: s' =>
      if (c =? 47)%N then basename_from s' s' else basename_from candidate s'
  end.
Definition posix_basename (p : Py.str) : Py.str := basename_from p p.

(** Two machines; the paths handed in are absolute and normalised. *)
Definition gpu_desktop : Platform :=
  {| abspath := fun p => p; basename := posix_basename;
     cuda_is_available := true; MODEL_AVAILABLE := true |}.
Definition cpu_desktop : Platform :=
  {| abspath := fun p => p; basename := posix_basename;
     cuda_is_available := false; MODEL_AVAILABLE := true |}.

(** [elapsed_time] of a transcription run. *)
Definition elapsed (env : TranscriptionThread.Env) : time :=
  (TranscriptionThread.end_time env - TranscriptionThread.start_time env)%Z.

(** What follows the relayed callbacks in a transcription trace: the
    effects of parsing and reporting, or of the handler of [run]. *)
Definition transcription_tail (self : TranscriptionThread.t)
    (env : TranscriptionThread.Env) : list Effect :=
  match TranscriptionThread.inference env with
  | inl e => trace (TranscriptionThread.on_error e)
  | inr res =>
      trace (try_except (TranscriptionThread.parse_and_report self env res)
                        TranscriptionThread.on_error)
  end.

(** A statement that leaves an observation of the state as it was. *)
Definition keeps {X A} (f : App -> X) (c : Stmt A) : Prop :=
  forall w, f (snd (c w)) = f w.

(** A statement that never raises. *)
Definition returns {A} (c : Stmt A) : Prop :=
  forall w, exists a, fst (c w) = inr a.

(** The effects of a teardown that goes through all its steps, for the
    model [m] and the keyword arguments held next to it. *)
Definition detach_effects (m : ModelHandle) : list Effect :=
  (if hasattr (audio_encoder m)
   then [setattr_None (Py.lit "audio_encoder")] else [])
  ++ (if hasattr (audio_adaptor m)
      then [setattr_None (Py.lit "audio_adaptor")] else [])
  ++ (if hasattr (llm m) then [setattr_None (Py.lit "llm")] else []).

Definition migrate_effects (m : ModelHandle) : list Effect :=
  print UnloadBegin
  :: (if has_set_progress_callback m then [set_progress_callback false]
      else [])
  ++ match first_param_is_cuda m with Some true => [to_cpu] | _ => [] end.

Definition reclaim_effects `{Platform} (kw : option Kwargs) : list Effect :=
  (if hasattr kw then [kwargs_clear] else [])
  ++ gc_collect
  :: (if cuda_is_available then [cuda_empty_cache; cuda_ipc_collect] else [])
  ++ [gc_collect; print UnloadDone].

Definition walk_effects (m : ModelHandle) : list Effect :=
  trace (MainWindow.delete_submodules (MainWindow.collect_submodules m)).

Definition teardown_effects `{Platform} (m : ModelHandle)
    (kw : option Kwargs) : list Effect :=
  migrate_effects m ++ detach_effects m ++ del_model :: walk_effects m
  ++ reclaim_effects kw.

(** The window after such a teardown. *)
Definition unloaded `{Platform} (m : ModelHandle) (w : App) : App :=
  {| model := None; model_kwargs := None; current_model_name := [];
     current_index := current_index w; path_label := path_label w;
     device_combo := device_combo w; load_btn := load_btn w;
     load_workers := load_workers w; audio_label := audio_label w;
     output_label := output_label w; transcribe_btn := false;
     transcription_workers := transcription_workers w;
     effects := effects w ++ teardown_effects m (model_kwargs w) |}.

(** Observations that no teardown and no page switch touches. *)
Definition loading (w : App) : list WorkerThread.t * bool :=
  (load_workers w, load_btn w).

(** While the load button is enabled no load thread is running, and there
    is never more than one. *)
Definition load_exclusive (w : App) : Prop :=
  length (load_workers w) <= 1
  /\ (load_btn w = true -> load_workers w = []).


(* ------------------------------------------------------------------ *)
(** ** Counting the objects of a model *)

(** The objects a walk can reach from [m], [m] included: the children
    listed in [_modules] that are not [None], and theirs. *)
Fixpoint modules_in (m : Module) : nat :=
  match m with
  | NNModule (Some children) _ _ =>
      S (list_sum (map (fun '(_, child) =>
                          match child with
                          | Some c => modules_in c
                          | None => 0
                          end) children))
  | _ => 1
  end.

(** Those among them on which one of the three dicts cannot be reached. *)
Fixpoint broken_in (m : Module) : nat :=
  match m with
  | PyObject => 0
  | NNModule None _ _ => 1
  | NNModule (Some children) params bufs =>
      (match params, bufs with Some _, Some _ => 0 | _, _ => 1 end)
      + list_sum (map (fun '(_, child) =>
                         match child with
                         | Some c => broken_in c
                         | None => 0
                         end) children)
  end.

Definition is_walk_call (ef : Effect) : bool :=
  match ef with call_recursive_delete _ => true | _ => false end.
Definition is_del_module (ef : Effect) : bool :=
  match ef with del_module _ => true | _ => false end.
Definition is_delete_error (ef : Effect) : bool :=
  match ef with print (DeleteError _) => true | _ => false end.

Definition count (f : Effect -> bool) (tr : list Effect) : nat :=
  length (filter f tr).

(* ------------------------------------------------------------------ *)
(** ** Observations on the window *)

(** The three attributes of [MainWindow] that describe the loaded model. *)
Definition slot_view (w : App)
  : option ModelHandle * option Kwargs * Py.str :=
  (model w, model_kwargs w, current_model_name w).

(** The widgets of the load page that [load_model] reads, and the threads
    of both pages. *)
Definition pages_view (w : App)
  : Py.str * DeviceChoice * bool * list WorkerThread.t
    * (Py.str * Py.str * list TranscriptionThread.t) :=
  (path_label w, device_combo w, load_btn w, load_workers w,
   (audio_label w, output_label w, transcription_workers w)).

(** With nothing in the slot there is no name and there are no keyword
    arguments either. *)
Definition slot_consistent (w : App) : Prop :=
  model w = None -> current_model_name w = [] /\ model_kwargs w = None.

(** A load thread was given a directory, not the text the path label shows
    at the start, and the GPU only on a machine that has one. *)
Definition load_worker_ok `{Platform} (t : WorkerThread.t) : Prop :=
  Py.str_eqb (WorkerThread.model_dir t) (Py.lit "未选择模型目录") = false
  /\ (WorkerThread.device t = cuda0 -> cuda_is_available = true).

(** A transcription thread was given an audio file and, if any, an output
    file: never the texts the two labels show at the start. *)
Definition transcription_worker_ok (t : TranscriptionThread.t) : Prop :=
  Py.str_eqb (TranscriptionThread.audio_path t) (Py.lit "未选择音频文件")
  = false
  /\ forall out,
      TranscriptionThread.output_path t = Some out ->
      Py.str_eqb out (Py.lit "未选择输出文件") = false.

Definition workers_ok `{Platform} (w : App) : Prop :=
  Forall load_worker_ok (load_workers w)
  /\ Forall transcription_worker_ok (transcription_workers w).

(** The events dispatched from inside the slot of [e]. *)
Definition waiting_of (e : Event) : list Event :=
  match e with
  | click_load _ waiting => waiting
  | _ => []
  end.

(** The threads of both pages whose terminal signal is still to come. *)
Definition threads_view (w : App)
  : list WorkerThread.t * list TranscriptionThread.t :=
  (load_workers w, transcription_workers w).

(* ------------------------------------------------------------------ *)
(** ** Sample objects *)

Definition linear : Module :=
  NNModule (Some [])
           (Some [(Py.lit "weight", Some {| is_cuda := true |});
                  (Py.lit "bias", None)])
           (Some []).

Definition encoder : Module :=
  NNModule (Some [(Py.lit "proj", Some linear); (Py.lit "drop", None)])
           (Some [])
           (Some [(Py.lit "mean", Some {| is_cuda := true |})]).

(** An [nn.Module] whose [_modules] cannot be reached. *)
Definition broken : Module := NNModule None (Some []) (Some []).

Definition nano (id : nat) : ModelHandle :=
  {| oid := id; has_set_progress_callback := true;
     audio_encoder := Some (Some encoder);
     audio_adaptor := Some (Some broken);
     llm := Some (Some linear);
     first_param_is_cuda := Some true; to_cpu_error := None |}.

(** The same model on a machine where moving it to the CPU fails. *)
Definition stuck (id : nat) : ModelHandle :=
  {| oid := id; has_set_progress_callback := true;
     audio_encoder := Some (Some encoder);
     audio_adaptor := Some (Some broken);
     llm := Some (Some linear);
     first_param_is_cuda := Some true;
     to_cpu_error := Some (Py.RuntimeError (Py.lit "out of memory")) |}.

Definition loads (m : ModelHandle) : WorkerThread.Env :=
  {| WorkerThread.isdir := true;
     WorkerThread.from_pretrained := inr (m, [(Py.lit "tokenizer", false)]);
     WorkerThread.eval_error := None |}.

Definition hello_result : Py.value :=
  Py.VTuple [Py.VList [Py.VDict [(Py.lit "key", Py.VStr (Py.lit "utt1"));
                                 (Py.lit "text", Py.VStr (Py.lit " 你好 "))]];
             Py.VList []].

Definition textless_result : Py.value :=
  Py.VTuple [Py.VList [Py.VDict [(Py.lit "key", Py.VStr (Py.lit "utt1"))]]].

Definition a_thread (out : option Py.str) : TranscriptionThread.t :=
  {| TranscriptionThread.model := nano 1;
     TranscriptionThread.kwargs := Some [];
     TranscriptionThread.audio_path := Py.lit "/home/u/a.wav";
     TranscriptionThread.output_path := out |}.

Definition an_env (file : bool) (cbs : list ProgressEvent)
    (res : Py.exn + Py.value) (werr : option Py.exn)
  : TranscriptionThread.Env :=
  {| TranscriptionThread.start_time := 1000;
     TranscriptionThread.isfile := file;
     TranscriptionThread.callbacks := cbs;
     TranscriptionThread.inference := res;
     TranscriptionThread.end_time := 2500;
     TranscriptionThread.write_error := werr;
     TranscriptionThread.write_fault := TranscriptionThread.at_open |}.

(** A window that holds the model [m], loaded from [/models/nano]. *)
Definition holding (m : ModelHandle) : App :=
  {| model := Some m; model_kwargs := Some [(Py.lit "tokenizer", false)];
     current_model_name := Py.lit "nano";
     current_index := 0;
     path_label := Py.lit "/models/nano"; device_combo := choice_auto;
     load_btn := true; load_workers := [];
     audio_label := Py.lit "未选择音频文件";
     output_label := Py.lit "未选择输出文件";
     transcribe_btn := true; transcription_workers := [];
     effects := [] |}.


(* ================================================================== *)
(** * String literals *)
(* ================================================================== *)

Example lit_decodes_utf8 :
  Py.lit "未找到文本" = [26410; 25214; 21040; 25991; 26412]%N.
Proof. reflexivity. Qed.

Example strip_drops_outer_whitespace :
  Py.strip (Py.lit "  你 好 ") = Py.lit "你 好".
Proof. reflexivity. Qed.

(* ================================================================== *)
(** * The two threads *)
(* ================================================================== *)

Lemma for_each_tell {X} (f : X -> Effect) (xs : list X) :
  for_each xs (fun x => tell (f x)) = (inr tt, map f xs).
Proof.
  induction xs as [|x xs IH]; simpl; [reflexivity|].
  rewrite IH. reflexivity.
Qed.

Lemma relay_callbacks (evs : list ProgressEvent) :
  for_each evs TranscriptionThread._progress_callback
  = (inr tt, map progress_signal evs).
Proof. apply for_each_tell. Qed.

Lemma progress_of_app l1 l2 :
  progress_of (l1 ++ l2) = progress_of l1 ++ progress_of l2.
Proof.
  induction l1 as [|ef l1 IH]; simpl; [reflexivity|].
  destruct ef; simpl; rewrite ?IH; reflexivity.
Qed.

Lemma results_of_app l1 l2 :
  results_of (l1 ++ l2) = results_of l1 ++ results_of l2.
Proof.
  induction l1 as [|ef l1 IH]; simpl; [reflexivity|].
  destruct ef; simpl; rewrite ?IH; reflexivity.
Qed.

Lemma progress_of_relayed evs : progress_of (map progress_signal evs) = evs.
Proof. induction evs; simpl; congruence. Qed.

Lemma results_of_relayed evs : results_of (map progress_signal evs) = [].
Proof. induction evs; simpl; congruence. Qed.



Lemma dict_get_absent d dflt :
  exposes_text (Py.VDict d) = false ->
  Py.dict_get (Py.lit "text") dflt d = dflt.
Proof.
  simpl. induction d as [|[k v] d IH]; simpl; [reflexivity|].
  intros H. apply orb_false_iff in H. destruct H as [Hk Hd].
  rewrite Hk. auto.
Qed.

Lemma strip_placeholder :
  Py.strip TranscriptionThread.placeholder = TranscriptionThread.placeholder.
Proof. vm_compute. reflexivity. Qed.

Lemma transcription_run_inferring (self : TranscriptionThread.t) env :
  has_set_progress_callback (TranscriptionThread.model self) = true ->
  TranscriptionThread.isfile env = true ->
  trace (TranscriptionThread.run self env)
  = set_progress_callback true
    :: progress_signal TranscriptionThread.preparing
    :: isfile_call (TranscriptionThread.audio_path self)
    :: inference_call (TranscriptionThread.audio_path self)
    :: map progress_signal (TranscriptionThread.callbacks env)
    ++ transcription_tail self env.
Proof.
  intros Hcb Hfile.
  unfold TranscriptionThread.run, transcription_tail.
  rewrite Hcb, Hfile, relay_callbacks.
  destruct (TranscriptionThread.inference env) as [e|res].
  - cbn. now rewrite app_nil_r.
  - cbn -[TranscriptionThread.parse_and_report].
    unfold try_except.
    destruct (fst (TranscriptionThread.parse_and_report self env res));
      cbn; now rewrite <- ?app_assoc.
Qed.

Lemma transcription_run_no_file (self : TranscriptionThread.t) env :
  has_set_progress_callback (TranscriptionThread.model self) = true ->
  TranscriptionThread.isfile env = false ->
  trace (TranscriptionThread.run self env)
  = [set_progress_callback true;
     progress_signal TranscriptionThread.preparing;
     isfile_call (TranscriptionThread.audio_path self);
     result_signal [] false
       (AudioMissing (TranscriptionThread.audio_path self))].
Proof.
  intros Hcb Hfile. unfold TranscriptionThread.run.
  rewrite Hcb, Hfile. reflexivity.
Qed.

Lemma transcription_run_no_callback (self : TranscriptionThread.t) env :
  has_set_progress_callback (TranscriptionThread.model self) = false ->
  trace (TranscriptionThread.run self env)
  = [result_signal [] false
       (TranscriptionError
          (Py.AttributeError (Py.lit "set_progress_callback")))].
Proof.
  intros Hcb. unfold TranscriptionThread.run. rewrite Hcb. reflexivity.
Qed.

Ltac split_matches :=
  repeat match goal with
         | |- context [match ?x with _ => _ end] =>
             lazymatch x with
             | fst _ => fail
             | _ => destruct x; cbn -[Py.lit Py.strip Py.dict_get Z.sub]
             end
         end.

(** The with block around the report and the signal after it: the run goes
    on to its terminal signal whether the file could be written or not. *)
Lemma save_and_report (self : TranscriptionThread.t) env out text el :
  try_except
    (TranscriptionThread.save_report self env out text el ;;
     tell (result_signal text true (TranscribedSaved el out)))
    (fun e => tell (result_signal text true (TranscribedSaveFailed el e)))
  = (inr tt,
     trace (TranscriptionThread.save_report self env out text el)
     ++ [result_signal text true
           match TranscriptionThread.write_error env with
           | None => TranscribedSaved el out
           | Some e => TranscribedSaveFailed el e
           end]).
Proof.
  unfold TranscriptionThread.save_report, TranscriptionThread.fails.
  destruct (TranscriptionThread.write_error env) as [e|];
    [destruct (TranscriptionThread.write_fault env)|]; reflexivity.
Qed.


Lemma transcription_tail_quiet self env :
  progress_of (transcription_tail self env) = [].
Proof.
  unfold transcription_tail, TranscriptionThread.parse_and_report.
  destruct (TranscriptionThread.inference env) as [e|res];
    [reflexivity|].
  unfold try_except, may_raise, TranscriptionThread.save_report,
    TranscriptionThread.fails, TranscriptionThread.closing.
  split_matches; reflexivity.
Qed.

Lemma transcription_tail_no_inference self env a :
  ~ In (inference_call a) (transcription_tail self env).
Proof.
  unfold transcription_tail, TranscriptionThread.parse_and_report.
  destruct (TranscriptionThread.inference env) as [e|res];
    [cbn; intuition discriminate|].
  unfold try_except, may_raise, TranscriptionThread.save_report,
    TranscriptionThread.fails, TranscriptionThread.closing.
  split_matches; cbn; intuition discriminate.
Qed.

Lemma results_of_inferring (self : TranscriptionThread.t) env :
  has_set_progress_callback (TranscriptionThread.model self) = true ->
  TranscriptionThread.isfile env = true ->
  results_of (trace (TranscriptionThread.run self env))
  = results_of (transcription_tail self env).
Proof.
  intros Hcb Hfile. rewrite transcription_run_inferring by assumption.
  cbn. now rewrite results_of_app, results_of_relayed.
Qed.

(** The tail of a run whose result has the expected containers and a first
    item that is a dict whose [text] (or the default) is a [str]. *)
Lemma transcription_tail_text (self : TranscriptionThread.t) env d items rest s :
  TranscriptionThread.inference env
  = inr (Py.VTuple (Py.VList (Py.VDict d :: items) :: rest)) ->
  Py.dict_get (Py.lit "text") (Py.VStr TranscriptionThread.placeholder) d
  = Py.VStr s ->
  transcription_tail self env
  = match TranscriptionThread.output_requested self with
    | Some out =>
        trace (TranscriptionThread.save_report
                 self env out (Py.strip s) (elapsed env))
        ++ [result_signal (Py.strip s) true
              match TranscriptionThread.write_error env with
              | None => TranscribedSaved (elapsed env) out
              | Some e => TranscribedSaveFailed (elapsed env) e
              end]
    | None => [result_signal (Py.strip s) true (Transcribed (elapsed env))]
    end.
Proof.
  intros Hres Hget. unfold transcription_tail, elapsed.
  rewrite Hres. unfold TranscriptionThread.parse_and_report.
  cbn -[Py.lit Py.strip Py.dict_get Z.sub try_except
        TranscriptionThread.save_report].
  rewrite Hget.
  cbn -[Py.lit Py.strip Z.sub try_except TranscriptionThread.save_report].
  destruct (TranscriptionThread.output_requested self) as [out|];
    [|reflexivity].
  rewrite save_and_report. cbn [try_except fst snd trace app].
  reflexivity.
Qed.

Lemma results_of_save_report (self : TranscriptionThread.t) env out text el :
  results_of (trace (TranscriptionThread.save_report self env out text el))
  = [].
Proof.
  unfold TranscriptionThread.save_report, TranscriptionThread.fails.
  destruct (TranscriptionThread.write_error env) as [e|];
    [destruct (TranscriptionThread.write_fault env)|]; reflexivity.
Qed.

(** The one result of such a run. *)
Lemma results_of_tail_text (self : TranscriptionThread.t) env d items rest s :
  TranscriptionThread.inference env
  = inr (Py.VTuple (Py.VList (Py.VDict d :: items) :: rest)) ->
  Py.dict_get (Py.lit "text") (Py.VStr TranscriptionThread.placeholder) d
  = Py.VStr s ->
  results_of (transcription_tail self env)
  = [(Py.strip s, true,
      match TranscriptionThread.output_requested self with
      | Some out =>
          match TranscriptionThread.write_error env with
          | None => TranscribedSaved (elapsed env) out
          | Some e => TranscribedSaveFailed (elapsed env) e
          end
      | None => Transcribed (elapsed env)
      end)].
Proof.
  intros Hres Hget. rewrite (transcription_tail_text self env Hres Hget).
  destruct (TranscriptionThread.output_requested self) as [out|];
    [|reflexivity].
  now rewrite results_of_app, results_of_save_report.
Qed.

(** A load run emits one of three progress sequences, and the full one
    whenever it reports success. *)
Lemma worker_progress `{Platform} (self : WorkerThread.t) env :
  let tr := trace (WorkerThread.run self env) in
  StronglySorted Z.le (map value (progress_of tr))
  /\ Forall (fun ev => (0 <= value ev <= total ev)%Z) (progress_of tr)
  /\ (forall m kw msg,
        In (m, kw, true, msg) (finished_of tr) ->
        exists front ev,
          progress_of tr = front ++ [ev] /\ value ev = total ev).
Proof.
  unfold WorkerThread.run, WorkerThread.emit_progress, may_raise, when.
  destruct (WorkerThread.isdir env); cbn -[Py.lit];
    [|repeat split; repeat constructor; cbn; try lia;
      intros ? ? ? [Hin|[]]; discriminate].
  destruct MODEL_AVAILABLE; cbn -[Py.lit];
    [|repeat split; repeat constructor; cbn; try lia;
      intros ? ? ? [Hin|[]]; discriminate].
  destruct (WorkerThread.from_pretrained env) as [e|[m kw]]; cbn -[Py.lit];
    [repeat split; repeat constructor; cbn; try lia;
     intros ? ? ? [Hin|[]]; discriminate|].
  destruct (WorkerThread.eval_error env) as [e|]; cbn -[Py.lit];
    [repeat split; repeat constructor; cbn; try lia;
     intros ? ? ? [Hin|[]]; discriminate|].
  destruct cuda_is_available; cbn -[Py.lit];
    (repeat split; [repeat constructor; cbn; lia
                   |repeat constructor; cbn; lia|]);
    intros _ _ _ _; eexists [_; _; _], _; split; reflexivity.
Qed.

(** C5 (as the code has it).  A load run emits progress values that never
    decrease, each between 0 and its total, and a load run that reports
    success ends its progress with value = total.  A transcription run
    emits 5 of 100 and then hands on what the model reports to its
    callback, unchanged and in order; it adds no event of its own at the
    end. *)
Theorem load_progress_monotone_and_transcription_relays `{Platform}
    (loader : WorkerThread.t) (lenv : WorkerThread.Env)
    (self : TranscriptionThread.t) (env : TranscriptionThread.Env) :
  (let tr := trace (WorkerThread.run loader lenv) in
   StronglySorted Z.le (map value (progress_of tr))
   /\ Forall (fun ev => (0 <= value ev <= total ev)%Z) (progress_of tr)
   /\ (forall m kw msg,
         In (m, kw, true, msg) (finished_of tr) ->
         exists front ev,
           progress_of tr = front ++ [ev] /\ value ev = total ev))
  /\ progress_of (trace (TranscriptionThread.run self env))
     = if has_set_progress_callback (TranscriptionThread.model self)
       then TranscriptionThread.preparing
            :: (if TranscriptionThread.isfile env
                then TranscriptionThread.callbacks env else [])
       else [].
Proof.
  split; [apply worker_progress|].
  destruct (has_set_progress_callback (TranscriptionThread.model self))
    eqn:Hcb.
  - destruct (TranscriptionThread.isfile env) eqn:Hfile.
    + rewrite transcription_run_inferring by assumption. cbn.
      now rewrite progress_of_app, progress_of_relayed,
        transcription_tail_quiet, app_nil_r.
    + now rewrite transcription_run_no_file.
  - now rewrite transcription_run_no_callback.
Qed.

Lemma load_progress_monotone_and_transcription_relays_witness :
  let loader := {| WorkerThread.model_dir := Py.lit "/models/nano";
                   WorkerThread.device := cuda0 |} in
  (exists front ev,
      progress_of (trace (WorkerThread.run (H := gpu_desktop) loader
                            (loads (nano 1))))
      = front ++ [ev]
      /\ value ev = total ev)
  /\ progress_of (trace (TranscriptionThread.run (a_thread None)
                           (an_env true [] (inr hello_result) None)))
     = [TranscriptionThread.preparing].
Proof.
  intros loader.
  destruct (@load_progress_monotone_and_transcription_relays gpu_desktop
              loader (loads (nano 1)) (a_thread None)
              (an_env true [] (inr hello_result) None))
    as [[_ [_ Hlast]] Hrelay].
  split; [|exact Hrelay].
  apply (Hlast (Some (nano 1)) (Some [(Py.lit "tokenizer", false)])
               ModelLoaded).
  vm_compute. left. reflexivity.
Defined.

(** C5 as stated fails: a transcription that succeeds with a model that
    reports no progress ends its progress at 5 of 100. *)
Lemma transcription_final_progress_not_total :
  ~ (forall (self : TranscriptionThread.t) env r msg front ev,
        results_of (trace (TranscriptionThread.run self env))
        = [(r, true, msg)] ->
        progress_of (trace (TranscriptionThread.run self env))
        = front ++ [ev] ->
        value ev = total ev).
Proof.
  intros H.
  specialize (H (a_thread None) (an_env true [] (inr hello_result) None)
                _ _ [] TranscriptionThread.preparing eq_refl eq_refl).
  discriminate H.
Qed.

(** C7 (as the code has it).  A transcription run registers its callback
    and emits its first progress event before it looks for the input file.
    When the file is not there the run ends in a failure and the inference
    call is never made; an inference call is made only after registration,
    first event and a successful file check, in this order. *)
Theorem transcription_registers_then_validates
    (self : TranscriptionThread.t) (env : TranscriptionThread.Env) :
  let tr := trace (TranscriptionThread.run self env) in
  (TranscriptionThread.isfile env = false ->
   (forall a, ~ In (inference_call a) tr)
   /\ exists msg, results_of tr = [([], false, msg)])
  /\ (has_set_progress_callback (TranscriptionThread.model self) = true ->
      TranscriptionThread.isfile env = false ->
      tr = [set_progress_callback true;
            progress_signal TranscriptionThread.preparing;
            isfile_call (TranscriptionThread.audio_path self);
            result_signal [] false
              (AudioMissing (TranscriptionThread.audio_path self))])
  /\ (forall a, In (inference_call a) tr ->
      TranscriptionThread.isfile env = true
      /\ exists tail,
          tr = set_progress_callback true
               :: progress_signal TranscriptionThread.preparing
               :: isfile_call (TranscriptionThread.audio_path self)
               :: inference_call (TranscriptionThread.audio_path self)
               :: tail).
Proof.
  intros tr. subst tr.
  destruct (has_set_progress_callback (TranscriptionThread.model self))
    eqn:Hcb.
  - destruct (TranscriptionThread.isfile env) eqn:Hfile.
    + rewrite transcription_run_inferring by assumption.
      split; [discriminate|]. split; [discriminate|].
      intros a _. split; [reflexivity|]. eauto.
    + rewrite transcription_run_no_file by assumption.
      split; [intros _; split|split].
      * intros a Hin. cbn in Hin. intuition discriminate.
      * eexists; reflexivity.
      * reflexivity.
      * intros a Hin. cbn in Hin. intuition discriminate.
  - rewrite transcription_run_no_callback by assumption.
    split; [intros _; split|split].
    + intros a Hin. cbn in Hin. intuition discriminate.
    + eexists; reflexivity.
    + discriminate.
    + intros a Hin. cbn in Hin. intuition discriminate.
Qed.

Lemma transcription_registers_then_validates_witness :
  trace (TranscriptionThread.run
           (a_thread None) (an_env false [] (inr hello_result) None))
  = [set_progress_callback true;
     progress_signal TranscriptionThread.preparing;
     isfile_call (Py.lit "/home/u/a.wav");
     result_signal [] false (AudioMissing (Py.lit "/home/u/a.wav"))].
Proof.
  apply (proj1 (proj2 (transcription_registers_then_validates
                         (a_thread None)
                         (an_env false [] (inr hello_result) None))));
    reflexivity.
Defined.

(** C7 as stated fails: with the input file missing, the callback has been
    registered all the same. *)
Lemma registration_precedes_validation :
  ~ (forall self env,
        TranscriptionThread.isfile env = false ->
        ~ In (set_progress_callback true)
             (trace (TranscriptionThread.run self env))).
Proof.
  intros H.
  apply (H (a_thread None) (an_env false [] (inr hello_result) None));
    [reflexivity|].
  left. reflexivity.
Qed.

(** C8 (as the code has it).  A result is refused with "cannot parse"
    exactly when it is not a non-empty tuple whose first element is a
    non-empty list.  With these containers in place the first item
    decides: a dict yields success with its stripped [text], or with the
    stripped default when it has none; a [text] that is no [str], or an
    item that is no dict, ends in the failure of the outer handler. *)
Theorem parse_failure_iff_container_mismatch
    (self : TranscriptionThread.t) (env : TranscriptionThread.Env) res :
  has_set_progress_callback (TranscriptionThread.model self) = true ->
  TranscriptionThread.isfile env = true ->
  TranscriptionThread.inference env = inr res ->
  let rs := results_of (trace (TranscriptionThread.run self env)) in
  (container_shape res = false -> rs = [([], false, CannotParseResult)])
  /\ (container_shape res = true ->
      match py_index (py_index res 0) 0 with
      | Py.VDict d =>
          match Py.dict_get (Py.lit "text")
                            (Py.VStr TranscriptionThread.placeholder) d with
          | Py.VStr s => exists msg, rs = [(Py.strip s, true, msg)]
          | _ => rs = [([], false,
                        TranscriptionError
                          (Py.AttributeError (Py.lit "strip")))]
          end
      | _ => rs = [([], false,
                    TranscriptionError (Py.AttributeError (Py.lit "get")))]
      end).
Proof.
  intros Hcb Hfile Hres rs. subst rs.
  rewrite results_of_inferring by assumption.
  destruct res as [| | | |outer|outer|outer];
    try (split; [intros _|discriminate];
         unfold transcription_tail; rewrite Hres; reflexivity).
  destruct outer as [|first outer];
    [split; [intros _|discriminate];
     unfold transcription_tail; rewrite Hres; reflexivity|].
  destruct first as [| | | |inner|inner|inner];
    try (split; [intros _|discriminate];
         unfold transcription_tail; rewrite Hres; reflexivity).
  destruct inner as [|item inner];
    [split; [intros _|discriminate];
     unfold transcription_tail; rewrite Hres; reflexivity|].
  split; [discriminate|intros _].
  cbn [py_index nth].
  destruct item as [| | | |xs|xs|d];
    try (unfold transcription_tail; rewrite Hres; reflexivity).
  destruct (Py.dict_get (Py.lit "text")
              (Py.VStr TranscriptionThread.placeholder) d) as [| | |s|xs|xs|xs]
    eqn:Hget;
    try (unfold transcription_tail, TranscriptionThread.parse_and_report;
         rewrite Hres;
         cbn -[Py.lit Py.strip Py.dict_get Z.sub try_except];
         rewrite Hget; reflexivity).
  rewrite (results_of_tail_text self env Hres Hget).
  eexists; reflexivity.
Qed.

Lemma parse_failure_iff_container_mismatch_witness :
  results_of (trace (TranscriptionThread.run
                       (a_thread None)
                       (an_env true [] (inr (Py.VTuple [Py.VList []])) None)))
  = [([], false, CannotParseResult)].
Proof.
  apply (proj1 (parse_failure_iff_container_mismatch
                  (a_thread None)
                  (an_env true [] (inr (Py.VTuple [Py.VList []])) None)
                  eq_refl eq_refl eq_refl)).
  reflexivity.
Defined.

(** C8 as stated fails: a first item without a [text] entry is accepted. *)
Lemma textless_item_is_accepted :
  exposes_text (py_index (py_index textless_result 0) 0) = false
  /\ results_of (trace (TranscriptionThread.run
                          (a_thread None)
                          (an_env true [] (inr textless_result) None)))
     = [(Py.lit "未找到文本", true, Transcribed 1500)].
Proof. split; reflexivity. Qed.

(** C9.  When the text was recognised and the report cannot be written,
    the run still reports success with the recognised text, and the
    message is the one that tells of the failed write. *)
Theorem write_failure_keeps_success
    (self : TranscriptionThread.t) (env : TranscriptionThread.Env)
    d items rest s out e :
  has_set_progress_callback (TranscriptionThread.model self) = true ->
  TranscriptionThread.isfile env = true ->
  TranscriptionThread.inference env
  = inr (Py.VTuple (Py.VList (Py.VDict d :: items) :: rest)) ->
  Py.dict_get (Py.lit "text") (Py.VStr TranscriptionThread.placeholder) d
  = Py.VStr s ->
  TranscriptionThread.output_requested self = Some out ->
  TranscriptionThread.write_error env = Some e ->
  results_of (trace (TranscriptionThread.run self env))
  = [(Py.strip s, true, TranscribedSaveFailed (elapsed env) e)].
Proof.
  intros Hcb Hfile Hres Hget Hout Hw.
  rewrite results_of_inferring by assumption.
  rewrite (results_of_tail_text self env Hres Hget), Hout, Hw.
  reflexivity.
Qed.

Lemma write_failure_keeps_success_witness :
  results_of
    (trace (TranscriptionThread.run
              (a_thread (Some (Py.lit "/root/out.txt")))
              (an_env true [] (inr hello_result)
                      (Some (Py.OSError (Py.lit "Permission denied"))))))
  = [(Py.lit "你好", true,
      TranscribedSaveFailed 1500 (Py.OSError (Py.lit "Permission denied")))].
Proof.
  apply (@write_failure_keeps_success
           (a_thread (Some (Py.lit "/root/out.txt")))
           (an_env true [] (inr hello_result)
                   (Some (Py.OSError (Py.lit "Permission denied"))))
           [(Py.lit "key", Py.VStr (Py.lit "utt1"));
            (Py.lit "text", Py.VStr (Py.lit " 你好 "))]
           [] [Py.VList []] (Py.lit " 你好 ") (Py.lit "/root/out.txt")
           (Py.OSError (Py.lit "Permission denied")));
    reflexivity.
Defined.

(** C10 (as the code has it).  When the result has the expected containers
    and its first item has no [text] entry, what the run reports depends on
    the item: for a dict it reports success and the recognised text is the
    placeholder; for anything else, which has no [get] to ask, it reports
    the failure of the outer handler. *)
Theorem placeholder_for_missing_text
    (self : TranscriptionThread.t) (env : TranscriptionThread.Env)
    item items rest :
  has_set_progress_callback (TranscriptionThread.model self) = true ->
  TranscriptionThread.isfile env = true ->
  TranscriptionThread.inference env
  = inr (Py.VTuple (Py.VList (item :: items) :: rest)) ->
  exposes_text item = false ->
  match item with
  | Py.VDict _ =>
      exists msg,
        results_of (trace (TranscriptionThread.run self env))
        = [(Py.lit "未找到文本", true, msg)]
  | _ =>
      results_of (trace (TranscriptionThread.run self env))
      = [([], false, TranscriptionError (Py.AttributeError (Py.lit "get")))]
  end.
Proof.
  intros Hcb Hfile Hres Htext.
  rewrite results_of_inferring by assumption.
  destruct item as [| | | |xs|xs|d];
    try (unfold transcription_tail; rewrite Hres; reflexivity).
  rewrite (results_of_tail_text self env Hres
             (dict_get_absent _ _ Htext)), strip_placeholder.
  eexists; reflexivity.
Qed.

Lemma placeholder_for_missing_text_witness :
  exists msg,
    results_of (trace (TranscriptionThread.run
                         (a_thread None)
                         (an_env true [] (inr textless_result) None)))
    = [(Py.lit "未找到文本", true, msg)].
Proof.
  apply (@placeholder_for_missing_text
           (a_thread None) (an_env true [] (inr textless_result) None)
           (Py.VDict [(Py.lit "key", Py.VStr (Py.lit "utt1"))]) [] []);
    reflexivity.
Defined.

(** C10 as stated fails: a first item that is a [str] has no [text] field
    either, and the run that finds it reports a failure. *)
Lemma item_without_get_is_refused :
  let res := Py.VTuple [Py.VList [Py.VStr (Py.lit "你好")]] in
  container_shape res = true
  /\ exposes_text (py_index (py_index res 0) 0) = false
  /\ results_of (trace (TranscriptionThread.run
                          (a_thread None) (an_env true [] (inr res) None)))
     = [([], false, TranscriptionError (Py.AttributeError (Py.lit "get")))].
Proof. repeat split. Qed.


(* ================================================================== *)
(** * Teardown *)
(* ================================================================== *)

Lemma for_each_returns {X} (body : X -> Exec unit) (xs : list X) :
  (forall x, fst (body x) = inr tt) -> fst (for_each xs body) = inr tt.
Proof.
  intros Hbody. induction xs as [|x xs IH]; [reflexivity|].
  cbn. unfold bind. now rewrite Hbody.
Qed.

Lemma recursive_delete_returns p m :
  fst (MainWindow._recursive_delete p m) = inr tt.
Proof.
  destruct m as [|mods params bufs]; cbn [MainWindow._recursive_delete];
    unfold bind at 1; cbn [fst tell]; unfold try_except;
    match goal with
    | |- fst (match ?x with _ => _ end) = _ => destruct x as [e|[]]
    end; reflexivity.
Qed.

Lemma delete_submodules_returns subs :
  fst (MainWindow.delete_submodules subs) = inr tt.
Proof.
  apply for_each_returns. intros [name [md|]];
    [apply recursive_delete_returns|reflexivity].
Qed.

Lemma perform_perform l1 l2 w :
  perform l2 (perform l1 w) = perform (l1 ++ l2) w.
Proof. destruct w; unfold perform; cbn. now rewrite app_assoc. Qed.

Lemma unload_model_empty `{Platform} (w : App) :
  model w = None -> MainWindow.unload_model w = (inr tt, w).
Proof.
  intros Hm. unfold MainWindow.unload_model, StmtMonad.bind at 1.
  cbn [StmtMonad.gets fst snd]. now rewrite Hm.
Qed.

Lemma perform_nil w : perform [] w = w.
Proof. destruct w; unfold perform; cbn. now rewrite app_nil_r. Qed.

Section Steps.
Import StmtMonad.
Context {A : Type} (k : unit -> Stmt A) (w : App).

Lemma bind_say ef : bind (say ef) k w = k tt (perform [ef] w).
Proof. reflexivity. Qed.

Lemma bind_when_say (b : bool) ef :
  bind (when b (say ef)) k w = k tt (perform (if b then [ef] else []) w).
Proof. destruct b; [reflexivity|]. now rewrite perform_nil. Qed.

Lemma bind_modify g : bind (modify g) k w = k tt (g w).
Proof. reflexivity. Qed.

Lemma bind_lift (c : Exec unit) :
  fst c = inr tt -> bind (lift c) k w = k tt (perform (snd c) w).
Proof. intros Hc. unfold bind, lift. now rewrite Hc. Qed.
End Steps.

Lemma bind_gets {X A} (f : App -> X) (k : X -> Stmt A) w :
  StmtMonad.bind (StmtMonad.gets f) k w = k (f w) w.
Proof. reflexivity. Qed.

Lemma bind_ret {X A} (x : X) (k : X -> Stmt A) w :
  StmtMonad.bind (StmtMonad.ret x) k w = k x w.
Proof. reflexivity. Qed.

Lemma bind_assoc {X Y Z} (c : Stmt X) (f : X -> Stmt Y) (k : Y -> Stmt Z) w :
  StmtMonad.bind (StmtMonad.bind c f) k w
  = StmtMonad.bind c (fun x => StmtMonad.bind (f x) k) w.
Proof. unfold StmtMonad.bind. now destruct (c w) as [[e|x] w']. Qed.

Lemma bind_when_true {A} (c : Stmt unit) (k : unit -> Stmt A) w :
  StmtMonad.bind (StmtMonad.when true c) k w = StmtMonad.bind c k w.
Proof. reflexivity. Qed.

Lemma bind_when_false {A} (c : Stmt unit) (k : unit -> Stmt A) w :
  StmtMonad.bind (StmtMonad.when false c) k w = k tt w.
Proof. reflexivity. Qed.

Ltac stmt_steps :=
  repeat (first [rewrite bind_say | rewrite bind_when_say
                | rewrite bind_modify | rewrite bind_gets | rewrite bind_ret
                | rewrite bind_when_true | rewrite bind_when_false
                | rewrite bind_assoc];
          cbv beta).

Lemma App_ext (a b : App) :
  model a = model b -> model_kwargs a = model_kwargs b ->
  current_model_name a = current_model_name b ->
  current_index a = current_index b -> path_label a = path_label b ->
  device_combo a = device_combo b -> load_btn a = load_btn b ->
  load_workers a = load_workers b -> audio_label a = audio_label b ->
  output_label a = output_label b -> transcribe_btn a = transcribe_btn b ->
  transcription_workers a = transcription_workers b ->
  effects a = effects b ->
  a = b.
Proof. destruct a, b; cbn; intros; subst; reflexivity. Qed.

Ltac fields :=
  lazy -[app Py.lit MainWindow.delete_submodules
         MainWindow.collect_submodules hasattr];
  try reflexivity.

Ltac finish_unload :=
  unfold StmtMonad.say, StmtMonad.lift; cbn [fst snd tell];
  f_equal; apply App_ext;
  unfold unloaded, teardown_effects, migrate_effects, detach_effects,
    reclaim_effects, walk_effects, trace;
  cbn [model model_kwargs current_model_name current_index path_label
       device_combo load_btn load_workers audio_label output_label
       transcribe_btn transcription_workers effects];
  repeat match goal with
         | H : _ = _ |- _ => rewrite H
         end;
  fields; try assumption;
  repeat (rewrite <- ?app_assoc; cbn [app]); reflexivity.

Lemma unload_model_completes `{Platform} (w : App) m :
  model w = Some m ->
  migration_error m = None ->
  MainWindow.unload_model w = (inr tt, unloaded m w).
Proof.
  intros Hm Hgo.
  unfold MainWindow.unload_model.
  rewrite bind_gets, Hm. unfold StmtMonad.try_except.
  unfold migration_error in Hgo.
  destruct (first_param_is_cuda m) as [[|]|] eqn:Hp; try discriminate;
    stmt_steps;
    [rewrite Hgo, bind_lift by reflexivity;
     cbn [may_raise ExecMonad.ret snd]; rewrite perform_nil; stmt_steps|];
    (rewrite bind_lift by apply delete_submodules_returns);
    stmt_steps;
    cbn [model_kwargs set_model perform];
    unfold TranscriptionPage.update_model_status; cbn [Py.truthy];
    destruct (model_kwargs w) eqn:Hkw, cuda_is_available eqn:Hcuda;
    stmt_steps.
  all: finish_unload.
Qed.

Lemma unload_model_aborts `{Platform} (w : App) m e :
  model w = Some m ->
  migration_error m = Some e ->
  MainWindow.unload_model w
  = (inr tt, perform (migrate_effects m ++ [print (UnloadError e)]) w).
Proof.
  intros Hm Hstop.
  unfold MainWindow.unload_model.
  rewrite bind_gets, Hm. unfold StmtMonad.try_except.
  unfold migration_error in Hstop.
  destruct (first_param_is_cuda m) as [[|]|] eqn:Hp; try discriminate;
    stmt_steps.
  - rewrite Hstop. unfold StmtMonad.bind at 1, StmtMonad.lift at 1.
    cbn [may_raise ExecMonad.raise fst snd].
    unfold StmtMonad.say, StmtMonad.lift; cbn [fst snd tell].
    f_equal. unfold migrate_effects. rewrite Hp.
    rewrite !perform_perform. f_equal.
    repeat (rewrite <- ?app_assoc; cbn [app]). now rewrite ?app_nil_r.
  - injection Hstop as <-. unfold StmtMonad.bind at 1, StmtMonad.raise.
    unfold StmtMonad.say, StmtMonad.lift; cbn [fst snd tell].
    f_equal. unfold migrate_effects. rewrite Hp.
    rewrite !perform_perform. f_equal.
    repeat (rewrite <- ?app_assoc; cbn [app]). now rewrite ?app_nil_r.
Qed.

(* ------------------------------------------------------------------ *)
(** ** The walk *)

Lemma for_each_pure {X} (body : X -> Exec unit) (f : X -> list Effect) xs :
  (forall x, body x = (inr tt, f x)) ->
  for_each xs body = (inr tt, flat_map f xs).
Proof.
  intros Hbody. induction xs as [|x xs IH]; [reflexivity|].
  change (for_each (x :: xs) body)
    with (bind (body x) (fun _ => for_each xs body)).
  rewrite Hbody, IH. reflexivity.
Qed.

Lemma Module_walk_ind (P : Module -> Prop) :
  P PyObject ->
  (forall mods params bufs,
      (forall children, mods = Some children ->
                        Forall (fun entry => forall c, snd entry = Some c -> P c)
                               children) ->
      P (NNModule mods params bufs)) ->
  forall m, P m.
Proof.
  intros HObj HNN. fix IH 1. intros [|mods params bufs]; [exact HObj|].
  apply HNN. destruct mods as [children|]; [|discriminate].
  intros children' [= <-].
  induction children as [|[name [c|]] children IHc].
  - constructor.
  - constructor; [|exact IHc]. cbn. intros c' [= <-]. apply IH.
  - constructor; [|exact IHc]. cbn. discriminate.
Qed.

Lemma walk_trace p m :
  MainWindow._recursive_delete p m
  = (inr tt,
     call_recursive_delete p :: children_effects p m ++ own_effects p m).
Proof.
  destruct m as [|mods params bufs]; [reflexivity|].
  cbn [MainWindow._recursive_delete children_effects own_effects].
  destruct mods as [children|]; [|reflexivity].
  rewrite (for_each_pure _ (child_effects p)).
  2:{ intros [name [c|]]; [|reflexivity].
      cbn [child_effects]. unfold bind at 1.
      now rewrite recursive_delete_returns. }
  destruct params as [parameters|];
    [|cbv -[Py.lit app flat_map child_effects]; now rewrite ?app_nil_r].
  rewrite (for_each_pure _ (fun entry => match snd entry with
                                         | Some _ => [parameters_pop p (fst entry)]
                                         | None => []
                                         end)).
  2:{ intros [n [t|]]; reflexivity. }
  destruct bufs as [buffers|].
  - rewrite (for_each_pure _ (fun entry => match snd entry with
                                         | Some _ => [buffers_pop p (fst entry)]
                                         | None => []
                                         end)).
    2:{ intros [n [t|]]; reflexivity. }
    unfold pop_effects.
    cbv -[Py.lit app flat_map child_effects]. now rewrite ?app_nil_r, <- ?app_assoc.
  - unfold pop_effects.
    cbv -[Py.lit app flat_map child_effects]. now rewrite ?app_nil_r, <- ?app_assoc.
Qed.

Lemma below_step p name q :
  q = p ++ [name] \/ below (p ++ [name]) q -> below p q.
Proof.
  intros [->|[n [rest ->]]].
  - exists name, []. reflexivity.
  - exists name, (n :: rest). now rewrite <- app_assoc.
Qed.

Lemma within_child p name ef : within (p ++ [name]) ef -> in_subtree p ef.
Proof.
  destruct ef; cbn; try tauto; intros Hq;
    try (right; now apply below_step with name);
    try (now apply below_step with name).
Qed.

Lemma Forall_flat_map_intro {X} (P : Effect -> Prop) (f : X -> list Effect) xs :
  (forall x, In x xs -> Forall P (f x)) -> Forall P (flat_map f xs).
Proof.
  induction xs as [|x xs IH]; intros Hf; cbn; [constructor|].
  apply Forall_app. split; [apply Hf; now left|].
  apply IH. intros y Hy. apply Hf. now right.
Qed.

Lemma own_effects_release p m : Forall (own_release p) (own_effects p m).
Proof.
  assert (Hpops : forall pop entries,
             (forall n, own_release p (pop p n)) ->
             Forall (own_release p) (pop_effects pop p entries)).
  { intros pop entries Hpop. apply Forall_flat_map_intro.
    intros [n [t|]] _; repeat constructor. apply Hpop. }
  destruct m as [|[children|] [parameters|] [buffers|]]; cbn [own_effects];
    repeat (apply Forall_app; split);
    try (apply Hpops; intros; reflexivity);
    repeat constructor.
Qed.

Lemma own_release_within p ef : own_release p ef -> within p ef.
Proof. destruct ef; cbn; tauto. Qed.

Lemma in_subtree_within p ef : in_subtree p ef -> within p ef.
Proof. destruct ef; cbn; tauto. Qed.

(** Everything a walk does is done to the object it was called for or to
    an object below it. *)
Lemma walk_within m : forall p,
  Forall (within p) (trace (MainWindow._recursive_delete p m)).
Proof.
  induction m as [|mods params bufs IH] using Module_walk_ind;
    intros p; rewrite walk_trace; cbn [trace snd].
  - repeat constructor.
  - constructor; [now left|].
    apply Forall_app. split.
    + destruct mods as [children|]; [|constructor].
      cbn [children_effects]. specialize (IH children eq_refl).
      apply Forall_flat_map_intro. intros [name [c|]] Hin; [|constructor].
      cbn [child_effects]. apply Forall_app. split.
      * rewrite Forall_forall in IH. specialize (IH _ Hin c eq_refl).
        eapply Forall_impl; [|apply IH].
        intros ef Hef. apply in_subtree_within. eapply within_child, Hef.
      * repeat constructor.
    + eapply Forall_impl; [|apply own_effects_release].
      apply own_release_within.
Qed.

Lemma children_in_subtree p m : Forall (in_subtree p) (children_effects p m).
Proof.
  destruct m as [|[children|] params bufs]; try constructor.
  cbn [children_effects].
  apply Forall_flat_map_intro. intros [name [c|]] _; [|constructor].
  cbn [child_effects]. apply Forall_app. split.
  - eapply Forall_impl; [|apply walk_within]. apply within_child.
  - repeat constructor.
Qed.

Lemma flat_map_split {X} (f : X -> list Effect) xs x :
  In x xs -> exists l1 l2, flat_map f xs = l1 ++ f x ++ l2.
Proof.
  intros Hin. apply in_split in Hin. destruct Hin as [a [b ->]].
  exists (flat_map f a), (flat_map f b).
  now rewrite flat_map_app.
Qed.

Lemma walk_effects_split m name md :
  In (name, Some md) (MainWindow.collect_submodules m) ->
  exists l1 l2,
    walk_effects m
    = l1 ++ trace (MainWindow._recursive_delete [name] md) ++ l2.
Proof.
  intros Hin. unfold walk_effects, MainWindow.delete_submodules.
  rewrite (for_each_pure _ (fun entry : Py.str * option Module =>
                              match snd entry with
                              | Some c =>
                                  trace (MainWindow._recursive_delete
                                           [fst entry] c)
                              | None => []
                              end)).
  2:{ intros [n [c|]]; [|reflexivity]. cbn. now rewrite walk_trace. }
  cbn [trace snd].
  exact (flat_map_split
           (fun entry : Py.str * option Module =>
              match snd entry with
              | Some c => trace (MainWindow._recursive_delete [fst entry] c)
              | None => []
              end) _ _ Hin).
Qed.

Lemma detach_covers m name v :
  In (name, v) (MainWindow.collect_submodules m) ->
  In (setattr_None name) (detach_effects m).
Proof.
  unfold MainWindow.collect_submodules, MainWindow.attr_entry, detach_effects.
  destruct (audio_encoder m), (audio_adaptor m), (llm m);
    cbn -[Py.lit]; intros Hin;
    repeat match goal with
           | H : _ \/ _ |- _ => destruct H
           | H : (_, _) = (_, _) |- _ => injection H as <- _
           | H : False |- _ => destruct H
           end; auto.
Qed.

Lemma no_walk_before_drop m p :
  ~ In (call_recursive_delete p) (migrate_effects m ++ detach_effects m).
Proof.
  unfold migrate_effects, detach_effects.
  destruct (has_set_progress_callback m), (first_param_is_cuda m) as [[|]|],
    (audio_encoder m), (audio_adaptor m), (llm m);
    cbn -[Py.lit]; intuition discriminate.
Qed.

Lemma walk_starts_with_call p m :
  In (call_recursive_delete p) (trace (MainWindow._recursive_delete p m)).
Proof. rewrite walk_trace. now left. Qed.

Lemma unload_model_returns `{Platform} w :
  fst (MainWindow.unload_model w) = inr tt.
Proof.
  unfold MainWindow.unload_model. rewrite bind_gets.
  destruct (model w) as [m|]; [|reflexivity].
  unfold StmtMonad.try_except.
  match goal with
  | |- fst (match ?x with _ => _ end) = _ => destruct x as [[e|[]] w']
  end; reflexivity.
Qed.

(** C2 (as the code has it).  No exception leaves [unload_model] or
    [_recursive_delete].  An object whose dicts cannot be reached costs a
    console line and nothing else: when the third step of the teardown does
    not raise, the slot is emptied, every sub-module that is there is
    walked and the teardown runs to its last line.  When the third step
    raises (no parameter, or the move to the CPU fails) the exception is
    printed and every later step is skipped: the window is as it was. *)
Theorem teardown_errors_are_contained `{Platform} :
  (forall w, fst (MainWindow.unload_model w) = inr tt)
  /\ (forall p md, fst (MainWindow._recursive_delete p md) = inr tt)
  /\ (forall p params bufs,
        trace (MainWindow._recursive_delete p (NNModule None params bufs))
        = [call_recursive_delete p;
           print (DeleteError (Py.AttributeError (Py.lit "_modules")))])
  /\ (forall w m,
        model w = Some m ->
        migration_error m = None ->
        let w' := snd (MainWindow.unload_model w) in
        model w' = None
        /\ (forall name md,
              In (name, Some md) (MainWindow.collect_submodules m) ->
              In (call_recursive_delete [name]) (effects w'))
        /\ exists steps, effects w' = effects w ++ steps ++ [print UnloadDone])
  /\ (forall w m e,
        model w = Some m ->
        migration_error m = Some e ->
        snd (MainWindow.unload_model w)
        = perform (migrate_effects m ++ [print (UnloadError e)]) w).
Proof.
  split; [|split; [|split; [|split]]].
  - apply unload_model_returns.
  - apply recursive_delete_returns.
  - intros p params bufs. now rewrite walk_trace.
  - intros w m Hm Hgo w'. subst w'.
    rewrite (unload_model_completes _ Hm Hgo). cbn [snd unloaded model effects].
    split; [reflexivity|]. split.
    + intros name md Hin. apply in_or_app. right.
      unfold teardown_effects. apply in_or_app. right.
      apply in_or_app. right. right. apply in_or_app. left.
      destruct (walk_effects_split _ _ _ Hin) as [l1 [l2 ->]].
      apply in_or_app. right. apply in_or_app. left.
      apply walk_starts_with_call.
    + unfold teardown_effects, reclaim_effects.
      exists (migrate_effects m ++ detach_effects m ++ del_model
              :: walk_effects m
              ++ (if hasattr (model_kwargs w) then [kwargs_clear] else [])
              ++ gc_collect
              :: (if cuda_is_available
                  then [cuda_empty_cache; cuda_ipc_collect] else [])
              ++ [gc_collect]).
      repeat (rewrite <- ?app_assoc; cbn [app]). reflexivity.
  - intros w m e Hm He. now rewrite (unload_model_aborts _ Hm He).
Qed.

Lemma teardown_errors_are_contained_witness :
  let w' := snd (@MainWindow.unload_model gpu_desktop (holding (nano 1))) in
  model w' = None
  /\ In (call_recursive_delete [Py.lit "audio_adaptor"]) (effects w').
Proof.
  destruct (proj1 (proj2 (proj2 (proj2
              (@teardown_errors_are_contained gpu_desktop))))
              (holding (nano 1)) (nano 1) eq_refl eq_refl)
    as [Hslot [Hwalk _]].
  split; [exact Hslot|].
  apply (Hwalk (Py.lit "audio_adaptor") broken).
  right. left. reflexivity.
Defined.

(** C2 as stated fails: when the move to the CPU fails, the teardown does
    not go on; the model stays in the slot and none of its sub-modules is
    walked, nor is any memory reclaimed. *)
Lemma failed_migration_stops_teardown :
  let w' := snd (@MainWindow.unload_model gpu_desktop (holding (stuck 1))) in
  model w' = Some (stuck 1)
  /\ effects w'
     = [print UnloadBegin; set_progress_callback false; to_cpu;
        print (UnloadError (Py.RuntimeError (Py.lit "out of memory")))]
  /\ ~ In (call_recursive_delete [Py.lit "audio_encoder"]) (effects w')
  /\ ~ In gc_collect (effects w').
Proof.
  cbv -[Py.lit]. repeat split; intuition discriminate.
Qed.

(** C3 (as the code has it).  [unload_model] sets the sub-module
    attributes of the model to [None] and drops the model itself before it
    walks any of the sub-modules.  Inside the walk the order is the other
    one: [_recursive_delete] walks a child first and takes it out of
    [_modules] of its parent afterwards.  At every object the walk handles
    all that belongs to the children before it releases the parameters
    and buffers of the object itself and the object (post-order). *)
Theorem walk_recurses_then_detaches `{Platform} :
  (forall w m,
      model w = Some m ->
      migration_error m = None ->
      exists before after,
        effects (snd (MainWindow.unload_model w))
        = effects w ++ before ++ del_model :: after
        /\ (forall name v,
              In (name, v) (MainWindow.collect_submodules m) ->
              In (setattr_None name) before)
        /\ (forall p, ~ In (call_recursive_delete p) before)
        /\ (forall name md,
              In (name, Some md) (MainWindow.collect_submodules m) ->
              exists l1 l2,
                after
                = l1 ++ trace (MainWindow._recursive_delete [name] md) ++ l2))
  /\ (forall p children params bufs name c,
        In (name, Some c) children ->
        exists l1 l2,
          trace (MainWindow._recursive_delete
                   p (NNModule (Some children) params bufs))
          = l1 ++ trace (MainWindow._recursive_delete (p ++ [name]) c)
               ++ modules_pop p name :: l2)
  /\ (forall p m,
        exists of_children own,
          trace (MainWindow._recursive_delete p m)
          = call_recursive_delete p :: of_children ++ own
          /\ Forall (in_subtree p) of_children
          /\ Forall (own_release p) own).
Proof.
  split; [|split].
  - intros w m Hm Hgo.
    rewrite (unload_model_completes _ Hm Hgo). cbn [snd unloaded effects].
    exists (migrate_effects m ++ detach_effects m),
      (walk_effects m ++ reclaim_effects (model_kwargs w)).
    split; [unfold teardown_effects; now rewrite <- !app_assoc|].
    split; [intros name v Hin; apply in_or_app; right;
            eapply detach_covers, Hin|].
    split; [intros p; apply no_walk_before_drop|].
    intros name md Hin.
    destruct (walk_effects_split _ _ _ Hin) as [l1 [l2 ->]].
    exists l1, (l2 ++ reclaim_effects (model_kwargs w)).
    now rewrite <- !app_assoc.
  - intros p children params bufs name c Hin.
    rewrite walk_trace. cbn [trace snd children_effects].
    destruct (flat_map_split (child_effects p) _ _ Hin) as [l1 [l2 ->]].
    exists (call_recursive_delete p :: l1),
      (l2 ++ own_effects p (NNModule (Some children) params bufs)).
    cbn [child_effects app]. now rewrite <- !app_assoc.
  - intros p m. exists (children_effects p m), (own_effects p m).
    rewrite walk_trace.
    split; [reflexivity|].
    split; [apply children_in_subtree|apply own_effects_release].
Qed.

Lemma walk_recurses_then_detaches_witness :
  exists l1 l2,
    trace (MainWindow._recursive_delete [Py.lit "audio_encoder"] encoder)
    = l1 ++ trace (MainWindow._recursive_delete
                     [Py.lit "audio_encoder"; Py.lit "proj"] linear)
         ++ modules_pop [Py.lit "audio_encoder"] (Py.lit "proj") :: l2.
Proof.
  apply (proj1 (proj2 (@walk_recurses_then_detaches gpu_desktop))
           [Py.lit "audio_encoder"]
           [(Py.lit "proj", Some linear); (Py.lit "drop", None)]
           (Some [])
           (Some [(Py.lit "mean", Some {| is_cuda := true |})])
           (Py.lit "proj") linear).
  left. reflexivity.
Defined.

(** C3 as stated fails: below the top level a child is walked while its
    parent still holds it; it is taken out of [_modules] only when its walk
    has returned. *)
Lemma child_is_walked_before_it_is_detached :
  trace (MainWindow._recursive_delete [Py.lit "audio_encoder"] encoder)
  = [call_recursive_delete [Py.lit "audio_encoder"];
     call_recursive_delete [Py.lit "audio_encoder"; Py.lit "proj"];
     parameters_pop [Py.lit "audio_encoder"; Py.lit "proj"] (Py.lit "weight");
     del_module [Py.lit "audio_encoder"; Py.lit "proj"];
     modules_pop [Py.lit "audio_encoder"] (Py.lit "proj");
     buffers_pop [Py.lit "audio_encoder"] (Py.lit "mean");
     del_module [Py.lit "audio_encoder"]]
  /\ ~ (forall p children params bufs name c,
          In (name, Some c) children ->
          exists l1 l2,
            trace (MainWindow._recursive_delete
                     p (NNModule (Some children) params bufs))
            = l1 ++ modules_pop p name :: l2
            /\ In (call_recursive_delete (p ++ [name])) l2).
Proof.
  split; [reflexivity|].
  intros Hclaim.
  destruct (Hclaim [Py.lit "audio_encoder"]
              [(Py.lit "proj", Some linear); (Py.lit "drop", None)]
              (Some [])
              (Some [(Py.lit "mean", Some {| is_cuda := true |})])
              (Py.lit "proj") linear (or_introl eq_refl))
    as [l1 [l2 [Heq Hin]]].
  cbv -[Py.lit app] in Heq.
  repeat (destruct l1 as [|? l1];
          [cbn in Heq; try discriminate Heq
          |cbn in Heq; injection Heq as <- Heq]).
  all: try discriminate Heq.
  - injection Heq as <-. cbn in Hin. intuition discriminate.
  - destruct l1; discriminate Heq.
Qed.

(* ================================================================== *)
(** * The slots of the pages *)
(* ================================================================== *)

Section Keeps.
Import StmtMonad.
Context {X : Type} (f : App -> X).
Hypothesis f_perform : forall l w, f (perform l w) = f w.

Lemma keeps_ret {A} (a : A) : keeps f (ret a).
Proof. intros w. reflexivity. Qed.

Lemma keeps_raise {A} e : keeps f (@raise A e).
Proof. intros w. reflexivity. Qed.

Lemma keeps_gets {Y} (g : App -> Y) : keeps f (gets g).
Proof. intros w. reflexivity. Qed.

Lemma keeps_lift {A} (c : Exec A) : keeps f (lift c).
Proof. intros w. apply f_perform. Qed.

Lemma keeps_say ef : keeps f (say ef).
Proof. apply keeps_lift. Qed.

Lemma keeps_modify g : (forall w, f (g w) = f w) -> keeps f (modify g).
Proof. intros Hg w. apply Hg. Qed.

Lemma keeps_bind {A B} (c : Stmt A) (k : A -> Stmt B) :
  keeps f c -> (forall a, keeps f (k a)) -> keeps f (bind c k).
Proof.
  intros Hc Hk w. unfold bind. specialize (Hc w).
  destruct (c w) as [[e|a] w']; cbn in *; [exact Hc|].
  now rewrite Hk.
Qed.

Lemma keeps_when b (c : Stmt unit) : keeps f c -> keeps f (when b c).
Proof. intros Hc. destruct b; [exact Hc|apply keeps_ret]. Qed.

Lemma keeps_try_except {A} (c : Stmt A) h :
  keeps f c -> (forall e, keeps f (h e)) -> keeps f (try_except c h).
Proof.
  intros Hc Hh w. unfold try_except. specialize (Hc w).
  destruct (c w) as [[e|a] w']; cbn in *; [|exact Hc].
  now rewrite Hh.
Qed.

Lemma keeps_slot (c : Stmt unit) : keeps f c -> forall w, f (slot c w) = f w.
Proof. intros Hc w. apply Hc. Qed.
End Keeps.

Ltac keeps_step :=
  first [ apply keeps_bind; [|intros ?]
        | apply keeps_try_except; [|intros ?]
        | apply keeps_when
        | apply keeps_say
        | apply keeps_lift
        | apply keeps_gets
        | apply keeps_ret
        | apply keeps_raise
        | apply keeps_modify; intros; reflexivity
        | match goal with
          | |- keeps _ (match ?x with _ => _ end) => destruct x
          end ];
  try (intros; reflexivity).

Ltac keeps_all := repeat keeps_step.


Lemma update_model_status_keeps_loading name :
  keeps loading (TranscriptionPage.update_model_status name).
Proof. unfold TranscriptionPage.update_model_status. keeps_all. Qed.

Lemma unload_model_keeps_loading `{Platform} :
  keeps loading MainWindow.unload_model.
Proof.
  unfold MainWindow.unload_model. keeps_all.
Qed.

Lemma switch_to_transcription_page_keeps_loading :
  keeps loading MainWindow.switch_to_transcription_page.
Proof.
  unfold MainWindow.switch_to_transcription_page. keeps_all.
  apply update_model_status_keeps_loading.
Qed.

Lemma on_model_loaded_keeps_loading `{Platform} m kw dir :
  keeps loading (MainWindow.on_model_loaded m kw dir).
Proof.
  unfold MainWindow.on_model_loaded. keeps_all;
    first [apply unload_model_keeps_loading
          |apply update_model_status_keeps_loading
          |apply switch_to_transcription_page_keeps_loading].
Qed.

Lemma start_transcription_keeps_loading isfile :
  keeps loading (TranscriptionPage.start_transcription isfile).
Proof. unfold TranscriptionPage.start_transcription. keeps_all. Qed.

Lemma transcription_finished_keeps_loading `{Platform} r ok msg :
  keeps loading (TranscriptionPage.transcription_finished r ok msg).
Proof. unfold TranscriptionPage.transcription_finished. keeps_all. Qed.

Lemma model_loaded_callback_loading `{Platform} m kw ok msg w :
  loading (StmtMonad.slot (ModelLoadPage.model_loaded_callback m kw ok msg) w)
  = (load_workers w, true).
Proof.
  unfold StmtMonad.slot, ModelLoadPage.model_loaded_callback.
  rewrite bind_modify.
  destruct ok.
  - rewrite bind_gets, bind_modify.
    rewrite switch_to_transcription_page_keeps_loading.
    unfold StmtMonad.slot. rewrite on_model_loaded_keeps_loading.
    reflexivity.
  - reflexivity.
Qed.

Lemma deliver_load_signals_workers `{Platform} tr w :
  load_workers (deliver_load_signals tr w) = load_workers w.
Proof.
  unfold deliver_load_signals. revert w.
  induction tr as [|ef tr IH]; intros w; [reflexivity|].
  cbn [fold_left]. rewrite IH.
  destruct ef; try reflexivity.
  change (fst (loading (StmtMonad.slot
                          (ModelLoadPage.model_loaded_callback
                             model0 kwargs success msg) w))
          = load_workers w).
  now rewrite model_loaded_callback_loading.
Qed.

Lemma deliver_transcription_signals_loading `{Platform} tr w :
  loading (deliver_transcription_signals tr w) = loading w.
Proof.
  unfold deliver_transcription_signals. revert w.
  induction tr as [|ef tr IH]; intros w; [reflexivity|].
  cbn [fold_left]. rewrite IH.
  destruct ef; try reflexivity.
  apply keeps_slot, transcription_finished_keeps_loading.
Qed.


(** The three ways [load_model] can go. *)
Lemma load_model_refuses_dir `{Platform} isdir pe w :
  Py.str_eqb (path_label w) (Py.lit "未选择模型目录") || negb isdir = true ->
  ModelLoadPage.load_model isdir pe w
  = (inr tt, perform [warning SelectValidModelDir] w).
Proof.
  intros Hbad. unfold ModelLoadPage.load_model.
  rewrite bind_gets, Hbad. reflexivity.
Qed.

Lemma load_model_refuses_gpu `{Platform} isdir pe w :
  Py.str_eqb (path_label w) (Py.lit "未选择模型目录") || negb isdir = false ->
  ModelLoadPage.resolve_device (device_combo w) = None ->
  ModelLoadPage.load_model isdir pe w
  = (inr tt, perform [warning CudaUnavailable] w).
Proof.
  intros Hok Hdev. unfold ModelLoadPage.load_model.
  rewrite bind_gets, Hok, bind_gets, Hdev. reflexivity.
Qed.

Lemma load_model_starts `{Platform} isdir (pe : Stmt unit) w d :
  (forall w0, fst (pe w0) = inr tt) ->
  Py.str_eqb (path_label w) (Py.lit "未选择模型目录") || negb isdir = false ->
  ModelLoadPage.resolve_device (device_combo w) = Some d ->
  let w1 := if hasattr (model w)
            then snd (MainWindow.unload_model (snd (pe w))) else w in
  ModelLoadPage.load_model isdir pe w
  = (inr tt,
     set_load_workers
       (load_workers w1 ++ [{| WorkerThread.model_dir := path_label w;
                               WorkerThread.device := d |}])
       (set_load_btn false w1)).
Proof.
  intros Hpe Hok Hdev w1. subst w1. unfold ModelLoadPage.load_model.
  rewrite bind_gets, Hok, bind_gets, Hdev, bind_gets.
  destruct (model w) as [m|] eqn:Hm; cbn [hasattr].
  - rewrite bind_when_true, bind_assoc.
    unfold StmtMonad.bind at 1. specialize (Hpe w).
    destruct (pe w) as [[e|[]] w0]; cbn in Hpe; [discriminate|].
    cbn [snd].
    unfold StmtMonad.bind at 1.
    pose proof (unload_model_returns w0) as Hu.
    destruct (MainWindow.unload_model w0) as [[e|[]] w1]; cbn in Hu;
      [discriminate|].
    cbn [snd]. reflexivity.
  - rewrite bind_when_false. reflexivity.
Qed.

Lemma dispatch_click_load `{Platform} isdir waiting w :
  current_index w = 0 -> load_btn w = true ->
  dispatch (click_load isdir waiting) w
  = snd (ModelLoadPage.load_model isdir
           (fun w' => (inr tt, run_events waiting w')) w).
Proof.
  intros Hidx Hbtn. cbn [dispatch]. rewrite Hidx, Hbtn. reflexivity.
Qed.

(** C6.  A load request with a valid directory resolves the device as
    follows: the automatic choice starts the load on the GPU when CUDA is
    available and on the CPU otherwise; the CPU choice starts it on the
    CPU; the GPU choice starts it on the GPU when CUDA is available, and
    otherwise only shows the warning: nothing is unloaded and no thread is
    started. *)
Theorem device_preference_is_resolved `{Platform} (w : App) isdir waiting :
  current_index w = 0 ->
  load_btn w = true ->
  Py.str_eqb (path_label w) (Py.lit "未选择模型目录") = false ->
  isdir = true ->
  let w' := dispatch (click_load isdir waiting) w in
  let started d :=
    exists ws,
      load_workers w'
      = ws ++ [{| WorkerThread.model_dir := path_label w;
                  WorkerThread.device := d |}] in
  match device_combo w with
  | choice_auto => started (if cuda_is_available then cuda0 else cpu)
  | choice_cpu => started cpu
  | choice_gpu =>
      if cuda_is_available then started cuda0
      else w' = perform [warning CudaUnavailable] w
  end.
Proof.
  intros Hidx Hbtn Hdir -> w' started. subst w' started.
  rewrite dispatch_click_load by assumption.
  assert (Hok : Py.str_eqb (path_label w) (Py.lit "未选择模型目录")
                || negb true = false) by now rewrite Hdir.
  assert (Hstart : forall d,
             ModelLoadPage.resolve_device (device_combo w) = Some d ->
             exists ws,
               load_workers
                 (snd (ModelLoadPage.load_model true
                         (fun w' => (inr tt, run_events waiting w')) w))
               = ws ++ [{| WorkerThread.model_dir := path_label w;
                           WorkerThread.device := d |}]).
  { intros d Hd.
    rewrite (load_model_starts true
               (fun w' => (inr tt, run_events waiting w')) w
               (fun _ => eq_refl) Hok Hd).
    cbn [snd]. eexists. reflexivity. }
  unfold ModelLoadPage.resolve_device in Hstart.
  destruct (device_combo w) eqn:Hcombo.
  - apply Hstart. reflexivity.
  - apply Hstart. reflexivity.
  - destruct cuda_is_available eqn:Hcuda.
    + apply Hstart. reflexivity.
    + rewrite load_model_refuses_gpu; [reflexivity|assumption|].
      unfold ModelLoadPage.resolve_device. now rewrite Hcombo, Hcuda.
Qed.

Lemma device_preference_is_resolved_witness :
  dispatch (H := cpu_desktop) (click_load true [])
           (set_device_combo choice_gpu (holding (nano 1)))
  = perform [warning CudaUnavailable]
            (set_device_combo choice_gpu (holding (nano 1))).
Proof.
  apply (@device_preference_is_resolved cpu_desktop
           (set_device_combo choice_gpu (holding (nano 1))) true []);
    reflexivity.
Defined.

(* ------------------------------------------------------------------ *)
(** ** One load at a time *)


Lemma load_exclusive_kept w w' :
  loading w' = loading w -> load_exclusive w -> load_exclusive w'.
Proof.
  unfold loading, load_exclusive. intros [= -> ->]. tauto.
Qed.

Lemma remove_only_worker {A} (l : list A) i t :
  length l <= 1 -> nth_error l i = Some t -> remove_nth i l = [].
Proof.
  destruct l as [|x [|y l]]; cbn; intros Hlen Hnth.
  - destruct i; discriminate.
  - destruct i as [|i]; [reflexivity|]. destruct i; discriminate.
  - lia.
Qed.

Lemma load_model_load_exclusive `{Platform} isdir w :
  load_exclusive w ->
  load_btn w = true ->
  load_exclusive
    (snd (ModelLoadPage.load_model isdir
            (fun w' => (inr tt, run_events [] w')) w)).
Proof.
  intros [Hlen Hidle] Hbtn. specialize (Hidle Hbtn).
  destruct (Py.str_eqb (path_label w) (Py.lit "未选择模型目录")
            || negb isdir) eqn:Hok.
  - rewrite load_model_refuses_dir by assumption.
    split; cbn; [assumption|]. intros _. assumption.
  - destruct (ModelLoadPage.resolve_device (device_combo w)) as [d|] eqn:Hd.
    + rewrite (load_model_starts isdir
                 (fun w' => (inr tt, run_events [] w')) w
                 (fun _ => eq_refl) Hok Hd).
      cbn [snd].
      assert (Hgen : forall w1 t,
                 load_workers w1 = [] ->
                 load_exclusive
                   (set_load_workers (load_workers w1 ++ [t])
                                     (set_load_btn false w1))).
      { intros w1 t Hws. split; cbn; [|discriminate].
        rewrite Hws. cbn. lia. }
      apply Hgen.
      destruct (hasattr (model w)); [|assumption].
      change (fst (loading (snd (MainWindow.unload_model
                                   (snd (inr tt : Py.exn + unit,
                                         run_events [] w))))) = []).
      now rewrite unload_model_keeps_loading.
    + rewrite load_model_refuses_gpu by assumption.
      split; cbn; [assumption|]. intros _. assumption.
Qed.

Lemma dispatch_load_exclusive `{Platform} e w :
  no_waiting e -> load_exclusive w -> load_exclusive (dispatch e w).
Proof.
  intros Hflat Hinv.
  destruct e as [d|c|isdir waiting|i env|f|f|isfile|i env| |];
    cbn [dispatch].
  - destruct (current_index w =? 0); [|assumption].
    apply load_exclusive_kept with (w := w); [|assumption].
    apply keeps_slot. unfold ModelLoadPage.browse_model_dir. keeps_all.
  - destruct (current_index w =? 0); assumption.
  - cbn in Hflat. subst waiting.
    destruct (current_index w =? 0); [|assumption].
    destruct (load_btn w) eqn:Hbtn; [|assumption]. cbn [andb].
    now apply load_model_load_exclusive.
  - destruct (nth_error (load_workers w) i) as [t|] eqn:Hnth; [|assumption].
    destruct Hinv as [Hlen _].
    split; rewrite deliver_load_signals_workers; cbn [load_workers];
      rewrite (remove_only_worker _ _ Hlen Hnth); cbn; auto.
  - destruct (current_index w =? 1); [|assumption].
    apply load_exclusive_kept with (w := w); [|assumption].
    apply keeps_slot. unfold TranscriptionPage.browse_audio_file. keeps_all.
  - destruct (current_index w =? 1); [|assumption].
    apply load_exclusive_kept with (w := w); [|assumption].
    apply keeps_slot. unfold TranscriptionPage.browse_output_file. keeps_all.
  - destruct ((current_index w =? 1) && transcribe_btn w); [|assumption].
    apply load_exclusive_kept with (w := w); [|assumption].
    apply keeps_slot, start_transcription_keeps_loading.
  - destruct (nth_error (transcription_workers w) i) as [t|]; [|assumption].
    apply load_exclusive_kept with (w := w); [|assumption].
    now rewrite deliver_transcription_signals_loading.
  - apply load_exclusive_kept with (w := w); [|assumption]. reflexivity.
  - apply load_exclusive_kept with (w := w); [|assumption].
    apply keeps_slot, switch_to_transcription_page_keeps_loading.
Qed.

Lemma run_events_load_exclusive `{Platform} es : forall w,
  Forall no_waiting es -> load_exclusive w -> load_exclusive (run_events es w).
Proof.
  induction es as [|e es IH]; intros w Hflat Hinv; [assumption|].
  inversion Hflat as [|? ? He Hes]; subst.
  apply IH; [assumption|]. now apply dispatch_load_exclusive.
Qed.

Lemma unload_model_keeps_transcriptions `{Platform} :
  keeps transcription_workers MainWindow.unload_model.
Proof. unfold MainWindow.unload_model. keeps_all. Qed.

Lemma load_accepted_during_transcription `{Platform} w isdir d :
  current_index w = 0 ->
  load_btn w = true ->
  Py.str_eqb (path_label w) (Py.lit "未选择模型目录") || negb isdir = false ->
  ModelLoadPage.resolve_device (device_combo w) = Some d ->
  let w' := dispatch (click_load isdir []) w in
  transcription_workers w' = transcription_workers w
  /\ load_workers w'
     = load_workers w ++ [{| WorkerThread.model_dir := path_label w;
                             WorkerThread.device := d |}].
Proof.
  intros Hidx Hbtn Hok Hd.
  rewrite dispatch_click_load by assumption.
  rewrite (load_model_starts isdir
             (fun w' => (inr tt, run_events [] w')) w
             (fun _ => eq_refl) Hok Hd).
  cbn [snd run_events fold_left transcription_workers load_workers
       set_load_workers set_load_btn].
  destruct (hasattr (model w)); [|split; reflexivity].
  rewrite unload_model_keeps_transcriptions.
  change (load_workers (snd (MainWindow.unload_model w)))
    with (fst (loading (snd (MainWindow.unload_model w)))).
  rewrite unload_model_keeps_loading. split; reflexivity.
Qed.

(** C4 (as the code has it).  As long as no event is dispatched from
    inside a running slot, at most one load thread is in flight, and while
    one is in flight a click on the load button changes nothing.  A click
    on the transcribe button starts no thread while the slot is empty.
    Transcription threads in flight do not hold a load back: a click on
    the enabled load button with a valid directory starts the load thread
    and leaves them running. *)
Theorem loads_exclude_each_other `{Platform} (es : list Event) :
  Forall no_waiting es ->
  let w := run_events es initial in
  length (load_workers w) <= 1
  /\ (load_workers w <> [] ->
      forall isdir waiting, dispatch (click_load isdir waiting) w = w)
  /\ (model w = None ->
      forall isfile,
        transcription_workers (dispatch (click_transcribe isfile) w)
        = transcription_workers w)
  /\ (forall isdir d,
        current_index w = 0 ->
        load_btn w = true ->
        Py.str_eqb (path_label w) (Py.lit "未选择模型目录") || negb isdir
        = false ->
        ModelLoadPage.resolve_device (device_combo w) = Some d ->
        let w' := dispatch (click_load isdir []) w in
        transcription_workers w' = transcription_workers w
        /\ load_workers w'
           = load_workers w
             ++ [{| WorkerThread.model_dir := path_label w;
                    WorkerThread.device := d |}]).
Proof.
  intros Hflat w.
  assert (Hinv : load_exclusive w).
  { apply run_events_load_exclusive; [assumption|].
    split; cbn; [lia|reflexivity]. }
  destruct Hinv as [Hlen Hidle].
  split; [assumption|]. split; [|split].
  - intros Hbusy isdir waiting. cbn [dispatch].
    destruct (load_btn w); [now destruct Hbusy; apply Hidle|].
    now rewrite andb_false_r.
  - intros Hempty isfile. cbn [dispatch].
    destruct ((current_index w =? 1) && transcribe_btn w); [|reflexivity].
    unfold StmtMonad.slot, TranscriptionPage.start_transcription.
    rewrite bind_gets.
    destruct (Py.str_eqb (audio_label w) (Py.lit "未选择音频文件")
              || negb isfile); [reflexivity|].
    rewrite bind_gets, Hempty. reflexivity.
  - intros isdir d Hidx Hbtn Hok Hd.
    now apply load_accepted_during_transcription.
Qed.

Lemma loads_exclude_each_other_witness :
  let w := run_events (H := gpu_desktop)
             [browse_model_dir (Py.lit "/models/nano"); click_load true []]
             initial in
  length (load_workers w) <= 1
  /\ dispatch (H := gpu_desktop) (click_load true []) w = w.
Proof.
  destruct (@loads_exclude_each_other gpu_desktop
              [browse_model_dir (Py.lit "/models/nano"); click_load true []])
    as [Hone [Hbusy _]].
  - repeat constructor.
  - split; [exact Hone|]. apply Hbusy. vm_compute. discriminate.
Defined.

(** C4 as stated fails.  A load request made while a transcription is in
    flight is accepted: it tears the model down under the running thread
    and starts the load, so that a load and an inference are in flight
    together.  And showing the transcription page again enables the
    start button, so that a second transcription can be started while the
    first is still running. *)
Lemma load_and_inference_in_flight_together :
  (let w := run_events (H := gpu_desktop)
              [browse_model_dir (Py.lit "/models/nano");
               click_load true [];
               load_thread_done 0 (loads (nano 1));
               browse_audio_file (Py.lit "/home/u/a.wav");
               click_transcribe true;
               click_model_btn;
               click_load true []]
              initial in
   length (load_workers w) = 1
   /\ map (fun t => oid (TranscriptionThread.model t))
          (transcription_workers w) = [1]
   /\ model w = None)
  /\ (let w := run_events (H := gpu_desktop)
                 [browse_model_dir (Py.lit "/models/nano");
                  click_load true [];
                  load_thread_done 0 (loads (nano 1));
                  browse_audio_file (Py.lit "/home/u/a.wav");
                  click_transcribe true;
                  click_transcribe_nav_btn;
                  click_transcribe true]
                 initial in
      length (transcription_workers w) = 2).
Proof. vm_compute. repeat split. Qed.

(** A second click on the load button that is waiting when [load_model]
    reaches [processEvents] is dispatched from inside the first: both
    start a load thread. *)
Lemma waiting_click_starts_second_load :
  let w := run_events (H := gpu_desktop)
             [click_load true [click_load true []]] (holding (nano 1)) in
  length (load_workers w) = 2.
Proof. vm_compute. reflexivity. Qed.

(* ------------------------------------------------------------------ *)
(** ** Replacing the model *)








(* ================================================================== *)
(** * The threads: terminal signals and failures *)
(* ================================================================== *)

Lemma finished_of_app l1 l2 :
  finished_of (l1 ++ l2) = finished_of l1 ++ finished_of l2.
Proof.
  induction l1 as [|ef l1 IH]; [reflexivity|].
  destruct ef; cbn; now rewrite ?IH.
Qed.

(** X1.  A load run never raises, and the last thing it does is to emit
    [finished_signal], which it emits once. *)
Theorem load_run_ends_with_its_only_outcome `{Platform}
    (self : WorkerThread.t) (env : WorkerThread.Env) :
  outcome (WorkerThread.run self env) = inr tt
  /\ exists front m kw ok msg,
      trace (WorkerThread.run self env)
      = front ++ [finished_signal m kw ok msg]
      /\ finished_of front = [].
Proof.
  unfold WorkerThread.run, WorkerThread.emit_progress, may_raise, when.
  destruct (WorkerThread.isdir env); cbn -[Py.lit];
    [|split; [reflexivity|]; eexists [_], _, _, _, _; split; reflexivity].
  destruct MODEL_AVAILABLE; cbn -[Py.lit];
    [|split; [reflexivity|]; eexists [_; _], _, _, _, _; split; reflexivity].
  destruct (WorkerThread.from_pretrained env) as [e|[m kw]]; cbn -[Py.lit];
    [split; [reflexivity|]; eexists [_; _; _], _, _, _, _; split; reflexivity|].
  destruct (WorkerThread.eval_error env) as [e|]; cbn -[Py.lit];
    [split; [reflexivity|];
     eexists [_; _; _; _], _, _, _, _; split; reflexivity|].
  destruct cuda_is_available; cbn -[Py.lit]; (split; [reflexivity|]).
  - eexists [_; _; _; _; _; _; _; _; _], _, _, _, _; split; reflexivity.
  - eexists [_; _; _; _; _; _; _], _, _, _, _; split; reflexivity.
Qed.

Ltac worker_cases env :=
  unfold WorkerThread.run, WorkerThread.emit_progress, may_raise, when;
  destruct (WorkerThread.isdir env) eqn:Hdir; cbn -[Py.lit];
  [destruct MODEL_AVAILABLE eqn:Havail; cbn -[Py.lit];
   [destruct (WorkerThread.from_pretrained env) as [e|[m' kw']] eqn:Hmk;
    cbn -[Py.lit];
    [|destruct (WorkerThread.eval_error env) as [e|] eqn:Heval;
      cbn -[Py.lit];
      [|destruct cuda_is_available eqn:Hcuda; cbn -[Py.lit]]]|]|].

Ltac in_cases H :=
  cbn in H;
  repeat match type of H with
         | _ \/ _ => destruct H as [H|H]
         | False => destruct H
         end;
  try discriminate H.

(** X2.  A load run reports success only when the directory is there, the
    model module was imported, [from_pretrained] returned and [eval] did
    not raise; it then hands on the very model and keyword arguments that
    [from_pretrained] returned.  A run that reports failure hands on no
    model, has done none of the memory clean-up, and its message tells
    which step failed. *)
Theorem load_outcome_tells_the_failed_step `{Platform}
    (self : WorkerThread.t) (env : WorkerThread.Env) :
  let tr := trace (WorkerThread.run self env) in
  (forall m kw msg,
      In (m, kw, true, msg) (finished_of tr) ->
      WorkerThread.isdir env = true /\ MODEL_AVAILABLE = true
      /\ WorkerThread.eval_error env = None
      /\ msg = ModelLoaded
      /\ exists m' kw',
          WorkerThread.from_pretrained env = inr (m', kw')
          /\ m = Some m' /\ kw = Some kw')
  /\ (forall m kw msg,
        In (m, kw, false, msg) (finished_of tr) ->
        m = None /\ kw = None /\ ~ In gc_collect tr
        /\ (WorkerThread.isdir env = false
            /\ msg = ModelDirMissing (abspath (WorkerThread.model_dir self))
            \/ WorkerThread.isdir env = true /\ MODEL_AVAILABLE = false
               /\ msg = ModelModuleUnavailable
            \/ exists e,
                WorkerThread.isdir env = true /\ MODEL_AVAILABLE = true
                /\ msg = ModelLoadFailed e
                /\ (WorkerThread.from_pretrained env = inl e
                    \/ (exists mk, WorkerThread.from_pretrained env = inr mk)
                       /\ WorkerThread.eval_error env = Some e)))
  /\ (forall m' kw',
        WorkerThread.isdir env = true -> MODEL_AVAILABLE = true ->
        WorkerThread.from_pretrained env = inr (m', kw') ->
        WorkerThread.eval_error env = None ->
        finished_of tr = [(Some m', Some kw', true, ModelLoaded)]).
Proof.
  intros tr. subst tr. split; [|split].
  - intros m kw msg. worker_cases env; intros Hin; in_cases Hin;
      injection Hin as <- <- <-; repeat split; eauto.
  - intros m kw msg. worker_cases env; intros Hin; in_cases Hin;
      injection Hin as <- <- <-;
      (split; [reflexivity|]; split; [reflexivity|]; split;
       [intros Hgc; in_cases Hgc|]).
    + right. right. exists e. repeat split. now left.
    + right. right. exists e. repeat split. right. split; eauto.
    + right. left. repeat split.
    + left. split; reflexivity.
  - intros m0 kw0 Hd Ha Hmk0 He.
    worker_cases env; try discriminate; injection Hmk0 as <- <-; reflexivity.
Qed.

Lemma load_outcome_tells_the_failed_step_witness :
  finished_of (trace (WorkerThread.run (H := gpu_desktop)
                        {| WorkerThread.model_dir := Py.lit "/models/nano";
                           WorkerThread.device := cuda0 |}
                        (loads (nano 1))))
  = [(Some (nano 1), Some [(Py.lit "tokenizer", false)], true, ModelLoaded)].
Proof.
  apply (proj2 (proj2 (@load_outcome_tells_the_failed_step gpu_desktop
                         {| WorkerThread.model_dir := Py.lit "/models/nano";
                            WorkerThread.device := cuda0 |}
                         (loads (nano 1))))); reflexivity.
Defined.

(** X3.  [from_pretrained] is called only once the directory was found and
    the model module is there, and then with the absolute path of the
    directory and the device the thread was created with. *)
Theorem construction_only_after_validation `{Platform}
    (self : WorkerThread.t) (env : WorkerThread.Env) d dev :
  In (from_pretrained_call d dev) (trace (WorkerThread.run self env)) ->
  WorkerThread.isdir env = true /\ MODEL_AVAILABLE = true
  /\ d = abspath (WorkerThread.model_dir self)
  /\ dev = WorkerThread.device self.
Proof.
  worker_cases env; intros Hin; in_cases Hin;
    injection Hin as <- <-; repeat split.
Qed.

Lemma construction_only_after_validation_witness :
  WorkerThread.isdir (loads (nano 1)) = true
  /\ @MODEL_AVAILABLE gpu_desktop = true
  /\ Py.lit "/models/nano" = Py.lit "/models/nano"
  /\ cuda0 = cuda0.
Proof.
  apply (@construction_only_after_validation gpu_desktop
           {| WorkerThread.model_dir := Py.lit "/models/nano";
              WorkerThread.device := cuda0 |}
           (loads (nano 1)) (Py.lit "/models/nano") cuda0).
  vm_compute. right. right. left. reflexivity.
Defined.

(* ------------------------------------------------------------------ *)
(** ** [str.strip] *)

Lemma lstrip_suffix s : exists sp, s = sp ++ Py.lstrip s.
Proof.
  induction s as [|c s [sp IH]]; [now exists []|].
  cbn. destruct (Py.isspace c).
  - exists (c :: sp). cbn. now f_equal.
  - now exists [].
Qed.

Lemma lstrip_head s c s' : Py.lstrip s = c :: s' -> Py.isspace c = false.
Proof.
  induction s as [|a s IH]; [discriminate|].
  cbn. destruct (Py.isspace a) eqn:Ha; [exact IH|].
  now intros [= <- _].
Qed.

Lemma lstrip_fixed s :
  (forall c s', s = c :: s' -> Py.isspace c = false) -> Py.lstrip s = s.
Proof.
  destruct s as [|c s]; [reflexivity|].
  intros Hc. cbn. now rewrite (Hc c s eq_refl).
Qed.

Lemma strip_head s c s' : Py.strip s = c :: s' -> Py.isspace c = false.
Proof.
  unfold Py.strip. intros Hs.
  destruct (lstrip_suffix (rev (Py.lstrip s))) as [sp Hsp].
  apply (f_equal (@rev N)) in Hsp.
  rewrite rev_involutive, rev_app_distr, Hs in Hsp. cbn in Hsp.
  exact (lstrip_head _ Hsp).
Qed.

Lemma strip_last s s' c : Py.strip s = s' ++ [c] -> Py.isspace c = false.
Proof.
  unfold Py.strip. intros Hs.
  apply (f_equal (@rev N)) in Hs.
  rewrite rev_involutive, rev_app_distr in Hs. cbn in Hs.
  exact (lstrip_head _ Hs).
Qed.

Lemma strip_strip s : Py.strip (Py.strip s) = Py.strip s.
Proof.
  assert (Hl : Py.lstrip (Py.strip s) = Py.strip s).
  { apply lstrip_fixed. intros c s'. apply strip_head. }
  unfold Py.strip at 1. rewrite Hl. unfold Py.strip.
  rewrite rev_involutive.
  f_equal. apply lstrip_fixed. intros c s'. apply lstrip_head.
Qed.

(* ------------------------------------------------------------------ *)
(** ** The end of a transcription run *)

(** The three ways a transcription run can end once the inference call
    was made: with a failure, with a success and no report asked for, or
    with a success after the attempt to write the report. *)
Lemma transcription_tail_shape (self : TranscriptionThread.t) env :
  (exists msg, transcription_tail self env = [result_signal [] false msg])
  \/ (exists s,
         TranscriptionThread.output_requested self = None
         /\ transcription_tail self env
            = [result_signal (Py.strip s) true (Transcribed (elapsed env))])
  \/ (exists s out,
         TranscriptionThread.output_requested self = Some out
         /\ transcription_tail self env
            = trace (TranscriptionThread.save_report
                       self env out (Py.strip s) (elapsed env))
              ++ [result_signal (Py.strip s) true
                    match TranscriptionThread.write_error env with
                    | None => TranscribedSaved (elapsed env) out
                    | Some e => TranscribedSaveFailed (elapsed env) e
                    end]).
Proof.
  destruct (TranscriptionThread.inference env) as [e|res] eqn:Hres;
    [left; unfold transcription_tail; rewrite Hres; eexists; reflexivity|].
  destruct res as [| | | |outer|outer|outer];
    try (left; unfold transcription_tail; rewrite Hres;
         eexists; reflexivity).
  destruct outer as [|first outer];
    [left; unfold transcription_tail; rewrite Hres; eexists; reflexivity|].
  destruct first as [| | | |inner|inner|inner];
    try (left; unfold transcription_tail; rewrite Hres;
         eexists; reflexivity).
  destruct inner as [|item inner];
    [left; unfold transcription_tail; rewrite Hres; eexists; reflexivity|].
  destruct item as [| | | |xs|xs|d];
    try (left; unfold transcription_tail; rewrite Hres;
         eexists; reflexivity).
  destruct (Py.dict_get (Py.lit "text")
              (Py.VStr TranscriptionThread.placeholder) d) as [| | |s|xs|xs|xs]
    eqn:Hget;
    try (left; unfold transcription_tail, TranscriptionThread.parse_and_report;
         rewrite Hres;
         cbn -[Py.lit Py.strip Py.dict_get Z.sub try_except];
         rewrite Hget; eexists; reflexivity).
  rewrite (transcription_tail_text self env Hres Hget).
  destruct (TranscriptionThread.output_requested self) as [out|].
  - right. right. exists s, out. split; reflexivity.
  - right. left. exists s. split; reflexivity.
Qed.

(** X4.  A transcription run never raises, and the last thing it does is to
    emit [result_signal], which it emits once. *)
Theorem transcription_run_ends_with_its_only_outcome
    (self : TranscriptionThread.t) (env : TranscriptionThread.Env) :
  outcome (TranscriptionThread.run self env) = inr tt
  /\ exists front r ok msg,
      trace (TranscriptionThread.run self env)
      = front ++ [result_signal r ok msg]
      /\ results_of front = [].
Proof.
  split.
  - unfold outcome, TranscriptionThread.run, try_except,
      TranscriptionThread.on_error.
    match goal with
    | |- fst (match fst ?c with _ => _ end) = _ =>
        destruct (fst c) as [e|[]]; reflexivity
    end.
  - destruct (has_set_progress_callback (TranscriptionThread.model self))
      eqn:Hcb;
      [|rewrite transcription_run_no_callback by assumption;
        now eexists [], _, _, _].
    destruct (TranscriptionThread.isfile env) eqn:Hfile;
      [|rewrite transcription_run_no_file by assumption;
        now eexists [_; _; _], _, _, _].
    rewrite transcription_run_inferring by assumption.
    destruct (transcription_tail_shape self env)
      as [[msg ->]|[[s [_ ->]]|[s [out [_ ->]]]]].
    + eexists (_ :: _ :: _ :: _ :: map progress_signal _), _, _, _.
      split; [reflexivity|]. cbn. apply results_of_relayed.
    + eexists (_ :: _ :: _ :: _ :: map progress_signal _), _, _, _.
      split; [reflexivity|]. cbn. apply results_of_relayed.
    + eexists (_ :: _ :: _ :: _ :: map progress_signal _
               ++ trace (TranscriptionThread.save_report _ _ _ _ _)),
        _, _, _.
      split; [cbn; now rewrite <- app_assoc|].
      cbn. now rewrite results_of_app, results_of_relayed,
             results_of_save_report.
Qed.

(** X5.  The text a transcription run reports with a success has no white
    space at either end, and stripping it again changes nothing; with a
    failure the text reported is empty. *)
Theorem reported_text_is_stripped
    (self : TranscriptionThread.t) (env : TranscriptionThread.Env)
    r (ok : bool) msg :
  In (r, ok, msg) (results_of (trace (TranscriptionThread.run self env))) ->
  if ok
  then Py.strip r = r
       /\ (forall c r', r = c :: r' -> Py.isspace c = false)
       /\ (forall r' c, r = r' ++ [c] -> Py.isspace c = false)
  else r = [].
Proof.
  destruct (has_set_progress_callback (TranscriptionThread.model self))
    eqn:Hcb;
    [|rewrite transcription_run_no_callback by assumption;
      intros [[= <- <- <-]|[]]; reflexivity].
  destruct (TranscriptionThread.isfile env) eqn:Hfile;
    [|rewrite transcription_run_no_file by assumption;
      intros [[= <- <- <-]|[]]; reflexivity].
  rewrite results_of_inferring by assumption.
  destruct (transcription_tail_shape self env)
    as [[m ->]|[[s [_ ->]]|[s [out [_ ->]]]]];
    rewrite ?results_of_app, ?results_of_save_report;
    intros [[= <- <- <-]|[]]; try reflexivity;
    (split; [apply strip_strip|]; split;
     [intros c r'; apply strip_head|intros r' c; apply strip_last]).
Qed.

Lemma reported_text_is_stripped_witness :
  Py.strip (Py.lit "你好") = Py.lit "你好"
  /\ (forall c r', Py.lit "你好" = c :: r' -> Py.isspace c = false)
  /\ (forall r' c, Py.lit "你好" = r' ++ [c] -> Py.isspace c = false).
Proof.
  apply (@reported_text_is_stripped
           (a_thread None) (an_env true [] (inr hello_result) None)
           (Py.lit "你好") true (Transcribed 1500)).
  left. reflexivity.
Defined.








(** A write that fails half-way leaves the first line in the file, and the
    run still reports success. *)
Example second_write_fails :
  let tr := trace (TranscriptionThread.run
                     (a_thread (Some (Py.lit "/root/out.txt")))
                     {| TranscriptionThread.start_time := 1000;
                        TranscriptionThread.isfile := true;
                        TranscriptionThread.callbacks := [];
                        TranscriptionThread.inference := inr hello_result;
                        TranscriptionThread.end_time := 2500;
                        TranscriptionThread.write_error :=
                          Some (Py.OSError (Py.lit "No space left on device"));
                        TranscriptionThread.write_fault :=
                          TranscriptionThread.at_write2 |}) in
  In (file_open (Py.lit "/root/out.txt")) tr
  /\ writes_of tr
     = [(Py.lit "/root/out.txt", AudioLine (Py.lit "/home/u/a.wav"))]
  /\ results_of tr
     = [(Py.lit "你好", true,
         TranscribedSaveFailed
           1500 (Py.OSError (Py.lit "No space left on device")))].
Proof. vm_compute. repeat split. do 4 right. now left. Qed.



(* ================================================================== *)
(** * The walk reaches every object *)
(* ================================================================== *)

Lemma count_app f l1 l2 : count f (l1 ++ l2) = count f l1 + count f l2.
Proof. unfold count. now rewrite filter_app, length_app. Qed.

Lemma list_sum_cons x l : list_sum (x :: l) = x + list_sum l.
Proof. reflexivity. Qed.

Lemma count_flat_map {X} f (g : X -> list Effect) xs :
  count f (flat_map g xs) = list_sum (map (fun x => count f (g x)) xs).
Proof.
  induction xs as [|x xs IH]; [reflexivity|].
  cbn [flat_map map]. now rewrite list_sum_cons, count_app, IH.
Qed.

Lemma list_sum_map_ext {X} (f g : X -> nat) xs :
  Forall (fun x => f x = g x) xs -> list_sum (map f xs) = list_sum (map g xs).
Proof.
  induction 1 as [|x xs Hx _ IH]; [reflexivity|].
  cbn [map]. now rewrite !list_sum_cons, Hx, IH.
Qed.

Lemma count_none f tr :
  (forall ef, In ef tr -> f ef = false) -> count f tr = 0.
Proof.
  intros Hf. unfold count. induction tr as [|ef tr IH]; [reflexivity|].
  cbn. rewrite (Hf ef (or_introl eq_refl)). apply IH.
  intros ef' Hin. apply Hf. now right.
Qed.

Lemma count_pops f pop p entries :
  (forall q n, f (pop q n) = false) ->
  count f (pop_effects pop p entries) = 0.
Proof.
  intros Hf. apply count_none. intros ef Hin.
  unfold pop_effects in Hin. apply in_flat_map in Hin.
  destruct Hin as [[n [t|]] [_ Hin]]; cbn in Hin; [|destruct Hin].
  destruct Hin as [<-|[]]. apply Hf.
Qed.

Lemma count_own_effects p m :
  count is_walk_call (own_effects p m) = 0
  /\ count is_delete_error (own_effects p m)
     = match m with
       | PyObject => 0
       | NNModule (Some _) (Some _) (Some _) => 0
       | _ => 1
       end
  /\ count is_del_module (own_effects p m)
     + count is_delete_error (own_effects p m) = 1.
Proof.
  destruct m as [|[children|] [params|] [bufs|]]; cbn [own_effects];
    rewrite ?count_app, ?count_pops by reflexivity; repeat split.
Qed.

(** X8.  A walk calls [_recursive_delete] once for every object that can be
    reached from the object it starts at, whatever is broken on the way;
    each of these calls ends either with the object deleted or with one
    line printed, the latter for exactly the objects on which a dict
    cannot be reached. *)
Theorem walk_accounts_for_every_object (m : Module) : forall p,
  let tr := trace (MainWindow._recursive_delete p m) in
  count is_walk_call tr = modules_in m
  /\ count is_delete_error tr = broken_in m
  /\ count is_del_module tr + count is_delete_error tr = modules_in m.
Proof.
  induction m as [|mods params bufs IH] using Module_walk_ind; intros p tr;
    subst tr; rewrite walk_trace; cbn [trace snd].
  - repeat split.
  - destruct (count_own_effects p (NNModule mods params bufs))
      as [Hcalls [Herrors Hends]].
    change (call_recursive_delete p
            :: children_effects p (NNModule mods params bufs)
            ++ own_effects p (NNModule mods params bufs))
      with ([call_recursive_delete p]
            ++ children_effects p (NNModule mods params bufs)
            ++ own_effects p (NNModule mods params bufs)).
    rewrite !count_app, Hcalls, Herrors.
    destruct mods as [children|]; [|repeat split].
    specialize (IH children eq_refl).
    cbn [children_effects modules_in broken_in]. rewrite !count_flat_map.
    assert (Hcall : list_sum (map (fun x => count is_walk_call
                                              (child_effects p x)) children)
                    = list_sum (map (fun '(_, child) =>
                                       match child with
                                       | Some c => modules_in c
                                       | None => 0
                                       end) children)).
    { apply list_sum_map_ext. eapply Forall_impl; [|exact IH].
      intros [name [c|]] Hc; [|reflexivity]. cbn [child_effects].
      rewrite count_app. cbn [snd] in Hc.
      destruct (Hc c eq_refl (p ++ [name])) as [-> _]. cbn. lia. }
    assert (Herr : list_sum (map (fun x => count is_delete_error
                                             (child_effects p x)) children)
                   = list_sum (map (fun '(_, child) =>
                                      match child with
                                      | Some c => broken_in c
                                      | None => 0
                                      end) children)).
    { apply list_sum_map_ext. eapply Forall_impl; [|exact IH].
      intros [name [c|]] Hc; [|reflexivity]. cbn [child_effects].
      rewrite count_app. cbn [snd] in Hc.
      destruct (Hc c eq_refl (p ++ [name])) as [_ [-> _]]. cbn. lia. }
    assert (Hdel : list_sum (map (fun x => count is_del_module
                                             (child_effects p x)) children)
                   + list_sum (map (fun x => count is_delete_error
                                               (child_effects p x)) children)
                   = list_sum (map (fun '(_, child) =>
                                      match child with
                                      | Some c => modules_in c
                                      | None => 0
                                      end) children)).
    { clear Hcall Herr Hcalls Herrors Hends.
      induction IH as [|[name [c|]] children Hc _ IHc]; [reflexivity| |].
      - cbn [map child_effects]. rewrite !list_sum_cons, !count_app.
        cbn [snd] in Hc.
        destruct (Hc c eq_refl (p ++ [name])) as [_ [_ Hsum]].
        cbn [trace] in Hsum.
        change (count is_del_module [modules_pop p name]) with 0.
        change (count is_delete_error [modules_pop p name]) with 0.
        lia.
      - cbn [map child_effects]. rewrite !list_sum_cons.
        change (count is_del_module []) with 0.
        change (count is_delete_error []) with 0.
        exact IHc. }
    rewrite Hcall, Herr.
    split; [cbn; lia|]. split; [destruct params, bufs; cbn; lia|].
    cbn [count filter is_del_module is_delete_error length app] in *.
    lia.
Qed.

Lemma walk_effects_within m :
  Forall (fun ef => exists p, within p ef) (walk_effects m).
Proof.
  unfold walk_effects, MainWindow.delete_submodules.
  rewrite (for_each_pure _ (fun entry : Py.str * option Module =>
                              match snd entry with
                              | Some c =>
                                  trace (MainWindow._recursive_delete
                                           [fst entry] c)
                              | None => []
                              end)).
  2:{ intros [n [c|]]; [|reflexivity]. cbn. now rewrite walk_trace. }
  cbn [trace snd].
  apply Forall_flat_map_intro. intros [n [c|]] _; [|constructor].
  cbn [fst snd]. eapply Forall_impl; [|apply walk_within].
  intros ef Hef. now exists [n].
Qed.

(** X17.  A teardown moves the model to the CPU exactly when its first
    parameter is on the GPU: a model that is on the CPU already is never
    moved, so that a move that would fail cannot stop its teardown. *)
Theorem only_a_gpu_model_is_moved `{Platform} (w : App) m :
  model w = Some m ->
  let w' := snd (MainWindow.unload_model w) in
  exists done,
    effects w' = effects w ++ done
    /\ (In to_cpu done <-> first_param_is_cuda m = Some true)
    /\ (first_param_is_cuda m = Some false -> model w' = None).
Proof.
  intros Hm w'. subst w'.
  assert (Hmig : In to_cpu (migrate_effects m)
                 <-> first_param_is_cuda m = Some true).
  { unfold migrate_effects.
    destruct (has_set_progress_callback m),
      (first_param_is_cuda m) as [[|]|]; cbn;
      split; intros Hin; try discriminate; auto;
      repeat destruct Hin as [Hin|Hin]; try discriminate; destruct Hin. }
  destruct (migration_error m) as [e|] eqn:Hgo.
  - rewrite (unload_model_aborts _ Hm Hgo). cbn [snd perform effects].
    eexists. split; [reflexivity|]. split.
    + rewrite in_app_iff, Hmig. split; [|now left].
      intros [Hin|[Hin|[]]]; [exact Hin|discriminate Hin].
    + intros Hcpu. unfold migration_error in Hgo. rewrite Hcpu in Hgo.
      discriminate Hgo.
  - rewrite (unload_model_completes _ Hm Hgo). cbn [snd unloaded effects model].
    eexists. split; [reflexivity|]. split; [|reflexivity].
    unfold teardown_effects. rewrite in_app_iff, Hmig.
    split; [|now left].
    intros [Hin|Hin]; [exact Hin|exfalso].
    apply in_app_or in Hin. destruct Hin as [Hin|[Hin|Hin]].
    + unfold detach_effects in Hin.
      destruct (audio_encoder m), (audio_adaptor m), (llm m);
        cbn -[Py.lit] in Hin; intuition discriminate.
    + discriminate Hin.
    + apply in_app_or in Hin. destruct Hin as [Hin|Hin].
      * pose proof (walk_effects_within m) as Hwalk.
        rewrite Forall_forall in Hwalk.
        destruct (Hwalk _ Hin) as [p []].
      * unfold reclaim_effects in Hin.
        destruct (hasattr (model_kwargs w)), cuda_is_available;
          cbn in Hin; intuition discriminate.
Qed.

Lemma only_a_gpu_model_is_moved_witness :
  exists done,
    effects (snd (MainWindow.unload_model (H := gpu_desktop)
                    (holding (nano 1))))
    = effects (holding (nano 1)) ++ done
    /\ (In to_cpu done <-> first_param_is_cuda (nano 1) = Some true)
    /\ (first_param_is_cuda (nano 1) = Some false ->
        model (snd (MainWindow.unload_model (H := gpu_desktop)
                      (holding (nano 1)))) = None).
Proof.
  exact (@only_a_gpu_model_is_moved gpu_desktop (holding (nano 1)) (nano 1)
           eq_refl).
Defined.

(* ================================================================== *)
(** * The slots, one delivery at a time *)
(* ================================================================== *)

Lemma bind_returns {A B} (c : Stmt A) (k : A -> Stmt B) w a :
  fst (c w) = inr a -> StmtMonad.bind c k w = k a (snd (c w)).
Proof.
  unfold StmtMonad.bind. destruct (c w) as [[e|a'] w']; cbn;
    [discriminate|]. now intros [= ->].
Qed.

Lemma update_model_status_keeps_view name :
  keeps slot_view (TranscriptionPage.update_model_status name).
Proof. unfold TranscriptionPage.update_model_status. keeps_all. Qed.

Lemma switch_to_transcription_page_keeps_view :
  keeps slot_view MainWindow.switch_to_transcription_page.
Proof.
  unfold MainWindow.switch_to_transcription_page. keeps_all.
  apply update_model_status_keeps_view.
Qed.

Lemma update_model_status_keeps_pages name :
  keeps pages_view (TranscriptionPage.update_model_status name).
Proof. unfold TranscriptionPage.update_model_status. keeps_all. Qed.

Lemma switch_to_transcription_page_keeps_pages :
  keeps pages_view MainWindow.switch_to_transcription_page.
Proof.
  unfold MainWindow.switch_to_transcription_page. keeps_all.
  apply update_model_status_keeps_pages.
Qed.

Lemma unload_model_keeps_pages `{Platform} :
  keeps pages_view MainWindow.unload_model.
Proof. unfold MainWindow.unload_model. keeps_all. Qed.

Lemma on_model_loaded_keeps_pages `{Platform} m kw dir :
  keeps pages_view (MainWindow.on_model_loaded m kw dir).
Proof.
  unfold MainWindow.on_model_loaded. keeps_all;
    first [apply unload_model_keeps_pages
          |apply update_model_status_keeps_pages
          |apply switch_to_transcription_page_keeps_pages].
Qed.

(** What [on_model_loaded] leaves in the slot, whatever was there. *)
Lemma on_model_loaded_view `{Platform} m kw dir w :
  slot_view (snd (MainWindow.on_model_loaded (Some m) kw dir w))
  = (Some m, kw, basename dir)
  /\ current_index (snd (MainWindow.on_model_loaded (Some m) kw dir w)) = 1
  /\ transcribe_btn (snd (MainWindow.on_model_loaded (Some m) kw dir w))
     = Py.truthy (basename dir).
Proof.
  unfold MainWindow.on_model_loaded.
  rewrite bind_gets.
  assert (Hpre : fst (StmtMonad.when (hasattr (model w))
                        MainWindow.unload_model w) = inr tt).
  { destruct (model w); cbn [hasattr StmtMonad.when];
      [apply unload_model_returns|reflexivity]. }
  rewrite (bind_returns _ _ _ Hpre).
  set (w0 := snd (StmtMonad.when (hasattr (model w))
                    MainWindow.unload_model w)).
  cbn [hasattr]. stmt_steps.
  unfold TranscriptionPage.update_model_status,
    MainWindow.switch_to_transcription_page.
  cbn [current_model_name set_current_model_name perform set_model
       set_model_kwargs].
  destruct (Py.truthy (basename dir)) eqn:Hname; stmt_steps;
    cbn [current_model_name set_current_model_name perform set_model
         set_model_kwargs set_transcribe_btn set_current_index];
    unfold TranscriptionPage.update_model_status; rewrite Hname;
    unfold StmtMonad.modify; cbn; repeat split.
Qed.

Lemma switch_to_transcription_page_shows w :
  current_index (snd (MainWindow.switch_to_transcription_page w)) = 1
  /\ transcribe_btn (snd (MainWindow.switch_to_transcription_page w))
     = Py.truthy (current_model_name w).
Proof.
  unfold MainWindow.switch_to_transcription_page. stmt_steps.
  unfold TranscriptionPage.update_model_status.
  cbn [current_model_name set_current_index].
  destruct (Py.truthy (current_model_name w)); split; reflexivity.
Qed.

(** The slot of [finished_signal] after a success. *)
Lemma model_loaded_callback_installs `{Platform} m kw msg w :
  let w' := StmtMonad.slot
              (ModelLoadPage.model_loaded_callback (Some m) kw true msg) w in
  slot_view w' = (Some m, kw, basename (path_label w))
  /\ current_index w' = 1
  /\ transcribe_btn w' = Py.truthy (basename (path_label w))
  /\ pages_view w' = pages_view (set_load_btn true w).
Proof.
  intros w'. subst w'.
  unfold StmtMonad.slot. unfold ModelLoadPage.model_loaded_callback.
  rewrite !bind_modify, !bind_gets, !bind_modify.
  cbn [path_label set_load_btn].
  set (w1 := StmtMonad.slot
               (MainWindow.on_model_loaded (Some m) kw (path_label w))
               (set_load_btn true w)).
  destruct (on_model_loaded_view m kw (path_label w) (set_load_btn true w))
    as [Hview [_ _]].
  fold (StmtMonad.slot
          (MainWindow.on_model_loaded (Some m) kw (path_label w))
          (set_load_btn true w)) in Hview.
  fold w1 in Hview.
  destruct (switch_to_transcription_page_shows w1) as [Hidx Hbtn].
  rewrite switch_to_transcription_page_keeps_view,
    switch_to_transcription_page_keeps_pages, Hview, Hidx, Hbtn.
  repeat split.
  - unfold slot_view in Hview. now injection Hview as _ _ ->.
  - subst w1. unfold StmtMonad.slot.
    apply on_model_loaded_keeps_pages.
Qed.

(** The slot of [finished_signal] after a failure. *)
Lemma model_loaded_callback_reports `{Platform} m kw msg w :
  StmtMonad.slot (ModelLoadPage.model_loaded_callback m kw false msg) w
  = perform [critical msg] (set_load_btn true w).
Proof. reflexivity. Qed.

Lemma deliver_load_signals_finished `{Platform} tr : forall w,
  deliver_load_signals tr w
  = fold_left
      (fun a '(m, kw, ok, msg) =>
         StmtMonad.slot (ModelLoadPage.model_loaded_callback m kw ok msg) a)
      (finished_of tr) w.
Proof.
  unfold deliver_load_signals.
  induction tr as [|ef tr IH]; intros w; [reflexivity|].
  destruct ef; cbn [fold_left finished_of]; apply IH.
Qed.

Lemma deliver_transcription_signals_results `{Platform} tr : forall w,
  deliver_transcription_signals tr w
  = fold_left
      (fun a '(r, ok, msg) =>
         StmtMonad.slot (TranscriptionPage.transcription_finished r ok msg) a)
      (results_of tr) w.
Proof.
  unfold deliver_transcription_signals.
  induction tr as [|ef tr IH]; intros w; [reflexivity|].
  destruct ef; cbn [fold_left results_of]; apply IH.
Qed.

(** Each run of a thread hands one terminal signal to the window. *)
Lemma load_run_outcome `{Platform} (t : WorkerThread.t) env :
  exists m kw ok msg,
    finished_of (trace (WorkerThread.run t env)) = [(m, kw, ok, msg)]
    /\ (ok = true -> exists m', m = Some m').
Proof.
  worker_cases env;
    eexists _, _, _, _; (split; [reflexivity|]);
    first [discriminate | eauto].
Qed.

Lemma transcription_run_outcome (t : TranscriptionThread.t) env :
  exists r ok msg,
    results_of (trace (TranscriptionThread.run t env)) = [(r, ok, msg)].
Proof.
  destruct (has_set_progress_callback (TranscriptionThread.model t)) eqn:Hcb;
    [|rewrite transcription_run_no_callback by assumption;
      now eexists _, _, _].
  destruct (TranscriptionThread.isfile env) eqn:Hfile;
    [|rewrite transcription_run_no_file by assumption;
      now eexists _, _, _].
  rewrite results_of_inferring by assumption.
  destruct (transcription_tail_shape t env)
    as [[m ->]|[[s [_ ->]]|[s [out [_ ->]]]]];
    rewrite ?results_of_app, ?results_of_save_report; now eexists _, _, _.
Qed.

(** X9.  When the terminal signal of a successful load is delivered, the
    model and the keyword arguments it carries are put into the slot,
    whatever was there, the model is named after the directory that the
    path label shows at that moment, the load button is enabled again and
    the transcription page is shown, its start button enabled when the name
    is not empty. *)
Theorem delivered_model_is_installed `{Platform}
    (w : App) i (t : WorkerThread.t) env m kw msg :
  nth_error (load_workers w) i = Some t ->
  finished_of (trace (WorkerThread.run t env)) = [(Some m, kw, true, msg)] ->
  let w' := dispatch (load_thread_done i env) w in
  model w' = Some m /\ model_kwargs w' = kw
  /\ current_model_name w' = basename (path_label w)
  /\ current_index w' = 1
  /\ transcribe_btn w' = Py.truthy (basename (path_label w))
  /\ load_btn w' = true
  /\ load_workers w' = remove_nth i (load_workers w)
  /\ transcription_workers w' = transcription_workers w.
Proof.
  intros Hnth Hrun w'. subst w'. cbn [dispatch]. rewrite Hnth.
  rewrite deliver_load_signals_finished, Hrun. cbn [fold_left].
  destruct (model_loaded_callback_installs m kw msg
              (set_load_workers (remove_nth i (load_workers w)) w))
    as [Hview [Hidx [Hbtn Hpages]]].
  unfold slot_view in Hview. injection Hview as Hm Hkw Hname.
  unfold pages_view in Hpages.
  injection Hpages as _ _ Hload Hws _ _ Htws.
  repeat split; assumption.
Qed.

Lemma delivered_model_is_installed_witness :
  let w := run_events (H := gpu_desktop)
             [browse_model_dir (Py.lit "/models/nano");
              click_load true [];
              browse_model_dir (Py.lit "/models/other")]
             initial in
  let w' := dispatch (H := gpu_desktop)
              (load_thread_done 0 (loads (nano 1))) w in
  option_map oid (model w') = Some 1
  /\ current_model_name w' = Py.lit "other".
Proof.
  destruct (@delivered_model_is_installed gpu_desktop
              (run_events (H := gpu_desktop)
                 [browse_model_dir (Py.lit "/models/nano");
                  click_load true [];
                  browse_model_dir (Py.lit "/models/other")]
                 initial)
              0 {| WorkerThread.model_dir := Py.lit "/models/nano";
                   WorkerThread.device := cuda0 |}
              (loads (nano 1)) (nano 1)
              (Some [(Py.lit "tokenizer", false)]) ModelLoaded
              eq_refl eq_refl)
    as [Hm [_ [Hname _]]].
  split; [now rewrite Hm|]. rewrite Hname. reflexivity.
Defined.



(** X11.  A click on the load button while the path label shows no
    directory, or shows something that is not a directory, only brings up a
    warning: the installed model is not unloaded, no thread is started and
    no waiting event is dispatched. *)
Theorem bad_directory_keeps_the_model `{Platform}
    (w : App) isdir waiting :
  current_index w = 0 ->
  load_btn w = true ->
  Py.str_eqb (path_label w) (Py.lit "未选择模型目录") = true
  \/ isdir = false ->
  dispatch (click_load isdir waiting) w
  = perform [warning SelectValidModelDir] w.
Proof.
  intros Hidx Hbtn Hbad.
  rewrite dispatch_click_load by assumption.
  rewrite load_model_refuses_dir; [reflexivity|].
  destruct Hbad as [-> | ->]; [reflexivity|apply orb_true_r].
Qed.

Lemma bad_directory_keeps_the_model_witness :
  dispatch (H := gpu_desktop) (click_load false []) (holding (nano 1))
  = perform [warning SelectValidModelDir] (holding (nano 1)).
Proof.
  apply (@bad_directory_keeps_the_model gpu_desktop
           (holding (nano 1)) false []); [reflexivity|reflexivity|].
  right. reflexivity.
Defined.

(** X12.  Unloading twice is unloading once: when a teardown went through
    the slot is empty, and [unload_model] on an empty slot does nothing, not
    even print. *)
Theorem unload_model_twice `{Platform} (w : App) m :
  model w = Some m ->
  migration_error m = None ->
  MainWindow.unload_model (snd (MainWindow.unload_model w))
  = MainWindow.unload_model w.
Proof.
  intros Hm Hgo. rewrite (unload_model_completes _ Hm Hgo). cbn [snd].
  now rewrite unload_model_empty.
Qed.

Lemma unload_model_twice_witness :
  MainWindow.unload_model (H := gpu_desktop)
    (snd (MainWindow.unload_model (H := gpu_desktop) (holding (nano 1))))
  = MainWindow.unload_model (H := gpu_desktop) (holding (nano 1)).
Proof.
  apply (@unload_model_twice gpu_desktop (holding (nano 1)) (nano 1));
    reflexivity.
Defined.

(** The three ways [start_transcription] can go. *)
Lemma start_transcription_refuses_audio isfile w :
  Py.str_eqb (audio_label w) (Py.lit "未选择音频文件") || negb isfile = true ->
  TranscriptionPage.start_transcription isfile w
  = (inr tt, perform [warning SelectValidAudio] w).
Proof.
  intros Hbad. unfold TranscriptionPage.start_transcription.
  rewrite bind_gets, Hbad. reflexivity.
Qed.

Lemma start_transcription_refuses_empty_slot isfile w :
  Py.str_eqb (audio_label w) (Py.lit "未选择音频文件") || negb isfile = false ->
  model w = None ->
  TranscriptionPage.start_transcription isfile w
  = (inr tt, perform [warning ModelNotLoaded] w).
Proof.
  intros Hok Hm. unfold TranscriptionPage.start_transcription.
  rewrite bind_gets, Hok, bind_gets, Hm. reflexivity.
Qed.

Lemma start_transcription_starts isfile w m :
  Py.str_eqb (audio_label w) (Py.lit "未选择音频文件") || negb isfile = false ->
  model w = Some m ->
  TranscriptionPage.start_transcription isfile w
  = (inr tt,
     set_transcription_workers
       (transcription_workers w
        ++ [{| TranscriptionThread.model := m;
               TranscriptionThread.kwargs := model_kwargs w;
               TranscriptionThread.audio_path := audio_label w;
               TranscriptionThread.output_path :=
                 if Py.str_eqb (output_label w) (Py.lit "未选择输出文件")
                 then None else Some (output_label w) |}])
       (set_transcribe_btn false w)).
Proof.
  intros Hok Hm. unfold TranscriptionPage.start_transcription.
  rewrite bind_gets, Hok, bind_gets, Hm. stmt_steps. reflexivity.
Qed.

Lemma transcription_finished_effect `{Platform} r (ok : bool) msg w :
  StmtMonad.slot (TranscriptionPage.transcription_finished r ok msg) w
  = perform (if ok
             then gc_collect
                  :: (if cuda_is_available then [cuda_empty_cache] else [])
             else [critical msg])
            (set_transcribe_btn true w).
Proof.
  unfold StmtMonad.slot, TranscriptionPage.transcription_finished.
  rewrite bind_modify. destruct ok; [|reflexivity].
  rewrite bind_say. unfold StmtMonad.when.
  destruct cuda_is_available; [|reflexivity].
  unfold StmtMonad.say, StmtMonad.lift. cbn [snd tell].
  apply perform_perform.
Qed.

(** X13.  [start_transcription] starts a thread only with an audio file
    that is there and a model in the slot; otherwise it changes nothing and
    shows one warning, about the audio file first.  The thread it starts
    holds the model and the keyword arguments that are in the slot at that
    moment, and an output path only when one was chosen. *)
Theorem transcription_starts_only_with_audio_and_model (w : App) isfile :
  let w' := snd (TranscriptionPage.start_transcription isfile w) in
  (Py.str_eqb (audio_label w) (Py.lit "未选择音频文件") = true
   \/ isfile = false ->
   w' = perform [warning SelectValidAudio] w)
  /\ (Py.str_eqb (audio_label w) (Py.lit "未选择音频文件") = false ->
      isfile = true -> model w = None ->
      w' = perform [warning ModelNotLoaded] w)
  /\ (forall t,
        In t (transcription_workers w') ->
        In t (transcription_workers w)
        \/ isfile = true
           /\ Py.str_eqb (audio_label w) (Py.lit "未选择音频文件") = false
           /\ model w = Some (TranscriptionThread.model t)
           /\ TranscriptionThread.kwargs t = model_kwargs w
           /\ TranscriptionThread.audio_path t = audio_label w
           /\ TranscriptionThread.output_path t
              = (if Py.str_eqb (output_label w) (Py.lit "未选择输出文件")
                 then None else Some (output_label w))
           /\ transcribe_btn w' = false).
Proof.
  intros w'. subst w'. split; [|split].
  - intros Hbad. rewrite start_transcription_refuses_audio; [reflexivity|].
    destruct Hbad as [-> | ->]; [reflexivity|apply orb_true_r].
  - intros Hlabel -> Hm.
    rewrite (@start_transcription_refuses_empty_slot true w);
      [reflexivity|now rewrite Hlabel|exact Hm].
  - intros t.
    destruct (Py.str_eqb (audio_label w) (Py.lit "未选择音频文件")
              || negb isfile) eqn:Hok;
      [rewrite start_transcription_refuses_audio by assumption; now left|].
    apply orb_false_elim in Hok. destruct Hok as [Hlabel Hfile].
    apply negb_false_iff in Hfile. subst isfile.
    destruct (model w) as [m|] eqn:Hm;
      [|rewrite (@start_transcription_refuses_empty_slot true w);
        [now left|now rewrite Hlabel|exact Hm]].
    rewrite (@start_transcription_starts true w m);
      [|now rewrite Hlabel|exact Hm].
    cbn [snd transcription_workers set_transcription_workers
         transcribe_btn set_transcribe_btn].
    intros Hin. apply in_app_or in Hin. destruct Hin as [Hin|[<-|[]]];
      [now left|right].
    repeat split; assumption.
Qed.

Lemma transcription_starts_only_with_audio_and_model_witness :
  snd (TranscriptionPage.start_transcription true initial)
  = perform [warning SelectValidAudio] initial.
Proof.
  apply (proj1 (transcription_starts_only_with_audio_and_model initial true)).
  left. reflexivity.
Defined.

(** X14.  From a click on the start button to the delivery of the thread's
    terminal signal: the button is disabled in between and enabled again at
    the end whatever the outcome, the slot and the load page are left as
    they were, and the window has collected garbage after a success or
    shown the message after a failure. *)
Theorem transcription_round_trip `{Platform} (w : App) m env :
  current_index w = 1 ->
  transcribe_btn w = true ->
  transcription_workers w = [] ->
  Py.str_eqb (audio_label w) (Py.lit "未选择音频文件") = false ->
  model w = Some m ->
  let w1 := dispatch (click_transcribe true) w in
  let w2 := dispatch (transcription_thread_done 0 env) w1 in
  transcribe_btn w1 = false
  /\ length (transcription_workers w1) = 1
  /\ transcribe_btn w2 = true
  /\ slot_view w2 = slot_view w
  /\ pages_view w2 = pages_view w
  /\ exists t r ok msg,
      transcription_workers w1 = [t]
      /\ results_of (trace (TranscriptionThread.run t env)) = [(r, ok, msg)]
      /\ effects w2
         = effects w
           ++ (if ok : bool
               then gc_collect
                    :: (if cuda_is_available then [cuda_empty_cache] else [])
               else [critical msg]).
Proof.
  intros Hidx Hbtn Hws Hlabel Hm w1 w2.
  set (worker :=
         {| TranscriptionThread.model := m;
            TranscriptionThread.kwargs := model_kwargs w;
            TranscriptionThread.audio_path := audio_label w;
            TranscriptionThread.output_path :=
              if Py.str_eqb (output_label w) (Py.lit "未选择输出文件")
              then None else Some (output_label w) |}).
  assert (Hw1 : w1 = set_transcription_workers
                       [worker] (set_transcribe_btn false w)).
  { subst w1. cbn [dispatch]. rewrite Hidx, Hbtn. cbn [Nat.eqb andb].
    unfold StmtMonad.slot.
    rewrite (@start_transcription_starts true w m);
      [|now rewrite Hlabel|exact Hm].
    cbn [snd]. now rewrite Hws. }
  clearbody w1. subst w1 w2.
  cbn [dispatch transcription_workers set_transcription_workers nth_error].
  destruct (transcription_run_outcome worker env) as [r [ok [msg Hrun]]].
  rewrite deliver_transcription_signals_results, Hrun. cbn [fold_left].
  rewrite transcription_finished_effect.
  split; [reflexivity|]. split; [reflexivity|]. split; [reflexivity|].
  split; [reflexivity|]. split.
  - unfold pages_view. cbn. now rewrite Hws.
  - exists worker, r, ok, msg. repeat split; assumption.
Qed.

Lemma transcription_round_trip_witness :
  let w := run_events (H := gpu_desktop)
             [click_transcribe_nav_btn;
              browse_audio_file (Py.lit "/home/u/a.wav")]
             (holding (nano 1)) in
  let w2 := run_events (H := gpu_desktop)
              [click_transcribe true;
               transcription_thread_done 0
                 (an_env true [] (inr hello_result) None)] w in
  transcribe_btn w2 = true /\ slot_view w2 = slot_view w.
Proof.
  destruct (@transcription_round_trip gpu_desktop
              (run_events (H := gpu_desktop)
                 [click_transcribe_nav_btn;
                  browse_audio_file (Py.lit "/home/u/a.wav")]
                 (holding (nano 1)))
              (nano 1) (an_env true [] (inr hello_result) None)
              eq_refl eq_refl eq_refl eq_refl eq_refl)
    as [_ [_ [Hbtn [Hview _]]]].
  split; assumption.
Defined.

(* ================================================================== *)
(** * What holds in every state the window can reach *)
(* ================================================================== *)

(** Induction on events, those dispatched from inside a slot first. *)
Lemma Event_nested_ind (P : Event -> Prop) :
  (forall e, Forall P (waiting_of e) -> P e) -> forall e, P e.
Proof.
  intros Hstep. fix IH 1. intros e. apply Hstep.
  destruct e as [d|c|isdir waiting|i env|f|f|isfile|i env| |];
    try constructor.
  cbn [waiting_of].
  induction waiting as [|e' waiting IHw]; constructor;
    [apply IH|exact IHw].
Qed.

Lemma run_events_app `{Platform} es1 es2 w :
  run_events (es1 ++ es2) w = run_events es2 (run_events es1 w).
Proof. apply fold_left_app. Qed.

(** A property of states kept by every event is kept by the events that
    wait, one after the other. *)
Lemma waiting_keep `{Platform} (I : App -> Prop) waiting :
  Forall (fun e => forall w, I w -> I (dispatch e w)) waiting ->
  forall w, I w -> I (fold_left (fun a e' => dispatch e' a) waiting w).
Proof.
  induction 1 as [|e waiting He _ IH]; intros w Hw; [exact Hw|].
  cbn [fold_left]. apply IH, He, Hw.
Qed.

Lemma slot_consistent_view w w' :
  slot_view w' = slot_view w -> slot_consistent w -> slot_consistent w'.
Proof.
  unfold slot_view, slot_consistent. intros [= -> -> ->]. tauto.
Qed.

Lemma unload_model_slot_consistent `{Platform} w :
  slot_consistent w -> slot_consistent (snd (MainWindow.unload_model w)).
Proof.
  intros Hw. destruct (model w) as [m|] eqn:Hm;
    [|now rewrite unload_model_empty].
  destruct (migration_error m) as [e|] eqn:Hgo.
  - rewrite (unload_model_aborts _ Hm Hgo). exact Hw.
  - rewrite (unload_model_completes _ Hm Hgo). split; reflexivity.
Qed.

Lemma load_model_slot_consistent `{Platform} isdir (pe : Stmt unit) w :
  (forall w0, fst (pe w0) = inr tt) ->
  (forall w0, slot_consistent w0 -> slot_consistent (snd (pe w0))) ->
  slot_consistent w ->
  slot_consistent (snd (ModelLoadPage.load_model isdir pe w)).
Proof.
  intros Hret Hpe Hw.
  destruct (Py.str_eqb (path_label w) (Py.lit "未选择模型目录")
            || negb isdir) eqn:Hok;
    [rewrite load_model_refuses_dir by assumption; exact Hw|].
  destruct (ModelLoadPage.resolve_device (device_combo w)) as [d|] eqn:Hd;
    [|rewrite load_model_refuses_gpu by assumption; exact Hw].
  rewrite (load_model_starts isdir pe w Hret Hok Hd). cbn [snd].
  apply slot_consistent_view
    with (w := if hasattr (model w)
               then snd (MainWindow.unload_model (snd (pe w))) else w);
    [reflexivity|].
  destruct (hasattr (model w)); [|exact Hw].
  apply unload_model_slot_consistent, Hpe, Hw.
Qed.

Lemma start_transcription_keeps_view isfile :
  keeps slot_view (TranscriptionPage.start_transcription isfile).
Proof. unfold TranscriptionPage.start_transcription. keeps_all. Qed.

Lemma transcription_finished_keeps_view `{Platform} r ok msg :
  keeps slot_view (TranscriptionPage.transcription_finished r ok msg).
Proof. unfold TranscriptionPage.transcription_finished. keeps_all. Qed.

Lemma deliver_transcription_signals_view `{Platform} tr : forall w,
  slot_view (deliver_transcription_signals tr w) = slot_view w.
Proof.
  unfold deliver_transcription_signals.
  induction tr as [|ef tr IH]; intros w; [reflexivity|].
  cbn [fold_left]. rewrite IH.
  destruct ef; try reflexivity.
  apply keeps_slot, transcription_finished_keeps_view.
Qed.

Lemma dispatch_slot_consistent `{Platform} e : forall w,
  slot_consistent w -> slot_consistent (dispatch e w).
Proof.
  induction e as [e IH] using Event_nested_ind. intros w Hw.
  destruct e as [d|c|isdir waiting|i env|f|f|isfile|i env| |];
    cbn [dispatch].
  - destruct (current_index w =? 0); [|exact Hw].
    apply slot_consistent_view with (w := w); [|exact Hw].
    apply keeps_slot.
    unfold ModelLoadPage.browse_model_dir. keeps_all.
  - destruct (current_index w =? 0); exact Hw.
  - destruct ((current_index w =? 0) && load_btn w); [|exact Hw].
    apply load_model_slot_consistent; [reflexivity| |exact Hw].
    intros w0. cbn [snd]. apply waiting_keep. exact IH.
  - destruct (nth_error (load_workers w) i) as [t|]; [|exact Hw].
    rewrite deliver_load_signals_finished.
    destruct (load_run_outcome t env) as [m [kw [ok [msg [-> Hok]]]]].
    cbn [fold_left]. destruct ok.
    + destruct (Hok eq_refl) as [m' ->].
      destruct (model_loaded_callback_installs m' kw msg
                  (set_load_workers (remove_nth i (load_workers w)) w))
        as [Hview _].
      unfold slot_consistent. unfold slot_view in Hview.
      injection Hview as -> _ _. discriminate.
    + rewrite model_loaded_callback_reports. exact Hw.
  - destruct (current_index w =? 1); [|exact Hw].
    apply slot_consistent_view with (w := w); [|exact Hw].
    apply keeps_slot.
    unfold TranscriptionPage.browse_audio_file. keeps_all.
  - destruct (current_index w =? 1); [|exact Hw].
    apply slot_consistent_view with (w := w); [|exact Hw].
    apply keeps_slot.
    unfold TranscriptionPage.browse_output_file. keeps_all.
  - destruct ((current_index w =? 1) && transcribe_btn w); [|exact Hw].
    apply slot_consistent_view with (w := w); [|exact Hw].
    apply keeps_slot, start_transcription_keeps_view.
  - destruct (nth_error (transcription_workers w) i) as [t|]; [|exact Hw].
    apply slot_consistent_view with (w := w); [|exact Hw].
    now rewrite deliver_transcription_signals_view.
  - exact Hw.
  - apply slot_consistent_view with (w := w); [|exact Hw].
    apply keeps_slot.
    apply switch_to_transcription_page_keeps_view.
Qed.

Lemma run_events_slot_consistent `{Platform} es : forall w,
  slot_consistent w -> slot_consistent (run_events es w).
Proof.
  induction es as [|e es IH]; intros w Hw; [exact Hw|].
  cbn [run_events fold_left]. apply IH.
  now apply dispatch_slot_consistent.
Qed.

(** X15.  In every state the window reaches from its start, by any events
    and also by events dispatched from inside [load_model], an empty slot
    goes with an empty model name and no keyword arguments; showing the
    transcription page in such a state leaves its start button disabled. *)
Theorem empty_slot_has_no_name `{Platform} (es : list Event) :
  let w := run_events es initial in
  model w = None ->
  current_model_name w = [] /\ model_kwargs w = None
  /\ transcribe_btn (dispatch click_transcribe_nav_btn w) = false.
Proof.
  intros w Hm.
  assert (Hw : slot_consistent w).
  { apply run_events_slot_consistent. split; reflexivity. }
  destruct (Hw Hm) as [Hname Hkw].
  split; [exact Hname|]. split; [exact Hkw|].
  cbn [dispatch]. unfold StmtMonad.slot.
  destruct (switch_to_transcription_page_shows w) as [_ ->].
  now rewrite Hname.
Qed.

Lemma empty_slot_has_no_name_witness :
  let w := run_events (H := gpu_desktop)
             [browse_model_dir (Py.lit "/models/nano");
              click_load true [];
              load_thread_done 0 (loads (nano 1));
              click_model_btn;
              click_load true []]
             initial in
  current_model_name w = [] /\ model_kwargs w = None
  /\ transcribe_btn (dispatch (H := gpu_desktop) click_transcribe_nav_btn w)
     = false.
Proof.
  apply (@empty_slot_has_no_name gpu_desktop
           [browse_model_dir (Py.lit "/models/nano");
            click_load true [];
            load_thread_done 0 (loads (nano 1));
            click_model_btn;
            click_load true []]).
  reflexivity.
Defined.

Lemma workers_ok_view `{Platform} w w' :
  threads_view w' = threads_view w -> workers_ok w -> workers_ok w'.
Proof.
  unfold threads_view, workers_ok. intros [= -> ->]. tauto.
Qed.

Lemma pages_threads w w' :
  pages_view w' = pages_view w -> threads_view w' = threads_view w.
Proof.
  unfold pages_view, threads_view. intros [= _ _ _ -> _ _ ->]. reflexivity.
Qed.

Lemma Forall_remove_nth {A} (P : A -> Prop) i l :
  Forall P l -> Forall P (remove_nth i l).
Proof.
  intros Hl. unfold remove_nth. apply Forall_app. split.
  - rewrite <- (firstn_skipn i l) in Hl. now apply Forall_app in Hl.
  - rewrite <- (firstn_skipn (S i) l) in Hl. now apply Forall_app in Hl.
Qed.

Lemma resolve_device_available `{Platform} choice d :
  ModelLoadPage.resolve_device choice = Some d ->
  d = cuda0 -> cuda_is_available = true.
Proof.
  unfold ModelLoadPage.resolve_device.
  destruct choice, cuda_is_available; cbn; congruence.
Qed.

Lemma load_model_workers_ok `{Platform} isdir (pe : Stmt unit) w :
  (forall w0, fst (pe w0) = inr tt) ->
  (forall w0, workers_ok w0 -> workers_ok (snd (pe w0))) ->
  workers_ok w ->
  workers_ok (snd (ModelLoadPage.load_model isdir pe w)).
Proof.
  intros Hret Hpe Hw.
  destruct (Py.str_eqb (path_label w) (Py.lit "未选择模型目录")
            || negb isdir) eqn:Hok;
    [rewrite load_model_refuses_dir by assumption; exact Hw|].
  destruct (ModelLoadPage.resolve_device (device_combo w)) as [d|] eqn:Hd;
    [|rewrite load_model_refuses_gpu by assumption; exact Hw].
  rewrite (load_model_starts isdir pe w Hret Hok Hd). cbn [snd].
  set (w1 := if hasattr (model w)
             then snd (MainWindow.unload_model (snd (pe w))) else w).
  assert (Hw1 : workers_ok w1).
  { subst w1. destruct (hasattr (model w)); [|exact Hw].
    apply workers_ok_view with (w := snd (pe w)); [|apply Hpe, Hw].
    apply pages_threads, unload_model_keeps_pages. }
  destruct Hw1 as [Hload Htr]. split; [|exact Htr].
  cbn [load_workers set_load_workers]. apply Forall_app. split; [exact Hload|].
  constructor; [|constructor]. split; cbn -[Py.lit].
  - now apply orb_false_elim in Hok.
  - now apply (resolve_device_available _ Hd).
Qed.

Lemma start_transcription_workers_ok `{Platform} isfile w :
  workers_ok w ->
  workers_ok (snd (TranscriptionPage.start_transcription isfile w)).
Proof.
  intros Hw.
  destruct (Py.str_eqb (audio_label w) (Py.lit "未选择音频文件")
            || negb isfile) eqn:Hok;
    [rewrite start_transcription_refuses_audio by assumption; exact Hw|].
  destruct (model w) as [m|] eqn:Hm;
    [|rewrite (@start_transcription_refuses_empty_slot isfile w)
        by assumption; exact Hw].
  rewrite (@start_transcription_starts isfile w m) by assumption.
  destruct Hw as [Hload Htr]. split; [exact Hload|].
  cbn [snd transcription_workers set_transcription_workers].
  apply Forall_app. split; [exact Htr|].
  constructor; [|constructor]. split; cbn -[Py.lit].
  - now apply orb_false_elim in Hok.
  - intros out.
    destruct (Py.str_eqb (output_label w) (Py.lit "未选择输出文件")) eqn:Hout;
      [discriminate|]. now intros [= <-].
Qed.

Lemma transcription_finished_keeps_pages `{Platform} r ok msg :
  keeps pages_view (TranscriptionPage.transcription_finished r ok msg).
Proof. unfold TranscriptionPage.transcription_finished. keeps_all. Qed.

Lemma deliver_transcription_signals_pages `{Platform} tr : forall w,
  pages_view (deliver_transcription_signals tr w) = pages_view w.
Proof.
  unfold deliver_transcription_signals.
  induction tr as [|ef tr IH]; intros w; [reflexivity|].
  cbn [fold_left]. rewrite IH.
  destruct ef; try reflexivity.
  apply keeps_slot, transcription_finished_keeps_pages.
Qed.

Lemma dispatch_workers_ok `{Platform} e : forall w,
  workers_ok w -> workers_ok (dispatch e w).
Proof.
  induction e as [e IH] using Event_nested_ind. intros w Hw.
  destruct e as [d|c|isdir waiting|i env|f|f|isfile|i env| |];
    cbn [dispatch].
  - destruct (current_index w =? 0); [|exact Hw].
    apply workers_ok_view with (w := w); [|exact Hw].
    apply keeps_slot.
    unfold ModelLoadPage.browse_model_dir. keeps_all.
  - destruct (current_index w =? 0); exact Hw.
  - destruct ((current_index w =? 0) && load_btn w); [|exact Hw].
    apply load_model_workers_ok; [reflexivity| |exact Hw].
    intros w0. cbn [snd]. apply waiting_keep. exact IH.
  - destruct (nth_error (load_workers w) i) as [t|]; [|exact Hw].
    assert (Hw0 : workers_ok
                    (set_load_workers (remove_nth i (load_workers w)) w)).
    { destruct Hw as [Hload Htr]. split; [|exact Htr].
      now apply Forall_remove_nth. }
    rewrite deliver_load_signals_finished.
    destruct (load_run_outcome t env) as [m [kw [ok [msg [-> Hok]]]]].
    cbn [fold_left]. destruct ok.
    + destruct (Hok eq_refl) as [m' ->].
      destruct (model_loaded_callback_installs m' kw msg
                  (set_load_workers (remove_nth i (load_workers w)) w))
        as [_ [_ [_ Hpages]]].
      eapply workers_ok_view; [|exact Hw0].
      apply pages_threads in Hpages. exact Hpages.
    + rewrite model_loaded_callback_reports. exact Hw0.
  - destruct (current_index w =? 1); [|exact Hw].
    apply workers_ok_view with (w := w); [|exact Hw].
    apply keeps_slot.
    unfold TranscriptionPage.browse_audio_file. keeps_all.
  - destruct (current_index w =? 1); [|exact Hw].
    apply workers_ok_view with (w := w); [|exact Hw].
    apply keeps_slot.
    unfold TranscriptionPage.browse_output_file. keeps_all.
  - destruct ((current_index w =? 1) && transcribe_btn w); [|exact Hw].
    now apply start_transcription_workers_ok.
  - destruct (nth_error (transcription_workers w) i) as [t|]; [|exact Hw].
    eapply workers_ok_view;
      [apply pages_threads, deliver_transcription_signals_pages|].
    destruct Hw as [Hload Htr]. split; [exact Hload|].
    now apply Forall_remove_nth.
  - exact Hw.
  - apply workers_ok_view with (w := w); [|exact Hw].
    apply pages_threads.
    apply keeps_slot, switch_to_transcription_page_keeps_pages.
Qed.

Lemma run_events_workers_ok `{Platform} es : forall w,
  workers_ok w -> workers_ok (run_events es w).
Proof.
  induction es as [|e es IH]; intros w Hw; [exact Hw|].
  cbn [run_events fold_left]. apply IH.
  now apply dispatch_workers_ok.
Qed.

(** X16.  Every thread that is running, in whatever state the window
    reaches, was started on real input: a load thread on a path other than
    the text the path label starts with, and on the GPU only when CUDA is
    available; a transcription thread on an audio path and, if any, an
    output path other than the texts their labels start with. *)
Theorem threads_run_on_chosen_paths `{Platform} (es : list Event) :
  let w := run_events es initial in
  (forall t,
      In t (load_workers w) ->
      WorkerThread.model_dir t <> Py.lit "未选择模型目录"
      /\ (WorkerThread.device t = cuda0 -> cuda_is_available = true))
  /\ (forall t,
        In t (transcription_workers w) ->
        TranscriptionThread.audio_path t <> Py.lit "未选择音频文件"
        /\ TranscriptionThread.output_path t
           <> Some (Py.lit "未选择输出文件")).
Proof.
  intros w.
  assert (Hw : workers_ok w).
  { apply run_events_workers_ok. split; constructor. }
  destruct Hw as [Hload Htr].
  rewrite Forall_forall in Hload, Htr. split.
  - intros t Hin. destruct (Hload t Hin) as [Hdir Hdev].
    split; [|exact Hdev]. intros Heq. rewrite Heq in Hdir.
    discriminate Hdir.
  - intros t Hin. destruct (Htr t Hin) as [Haudio Hout]. split.
    + intros Heq. rewrite Heq in Haudio. discriminate Haudio.
    + intros Heq. specialize (Hout _ Heq). discriminate Hout.
Qed.

Lemma threads_run_on_chosen_paths_witness :
  WorkerThread.model_dir
    {| WorkerThread.model_dir := Py.lit "/models/nano";
       WorkerThread.device := cpu |}
  <> Py.lit "未选择模型目录"
  /\ (WorkerThread.device
        {| WorkerThread.model_dir := Py.lit "/models/nano";
           WorkerThread.device := cpu |} = cuda0
      -> @cuda_is_available cpu_desktop = true).
Proof.
  apply (proj1 (@threads_run_on_chosen_paths cpu_desktop
                  [browse_model_dir (Py.lit "/models/nano");
                   click_load true []])
               {| WorkerThread.model_dir := Py.lit "/models/nano";
                  WorkerThread.device := cpu |}).
  vm_compute. left. reflexivity.
Defined.

